(** * casbin-opentelemetry-logger: the event gate and the metric recorder

    A shallow embedding of the two versions of [opentelemetry_logger.go]
    (the one built from a meter and a context, and the one built from a
    meter provider), with the properties of their lifecycle hooks.

    Conventions of the embedding:
    - a Go [error] is [option GoError], [None] being [nil];
    - a pointer argument [entry *LogEntry] is threaded explicitly: a hook
      takes the entry and returns the entry as it leaves it;
    - [time.Now()] is an input [now] of each hook;
    - every call that leaves the logger (an instrument's [Record] or
      [Add], the user callback) is appended to a trace of [Effect]s, in
      program order. *)

From stdpp Require Import gmap strings list fin_maps.
From Stdlib Require Import ZArith.

Local Open Scope Z_scope.

(** ** Go values used by the logger *)

(** [errors.New(msg)]; an [error] interface value is [nil] or such a value. *)
Inductive GoError : Type :=
| errors_New (msg : string).

Definition error : Type := option GoError.

(** [context.Context]: the background context or a context derived by the
    caller, told apart by a tag. *)
Inductive context_Context : Type :=
| context_Background
| context_Derived (tag : nat).

(** [time.Time] is an instant in nanoseconds on one time line (the wall
    clock and the monotonic clock are taken to agree); [time.Duration] is a
    signed 64-bit count of nanoseconds. *)
Definition time_Time : Type := Z.
Definition time_Duration : Type := Z.

Definition minDuration : time_Duration := - 2 ^ 63.
Definition maxDuration : time_Duration := 2 ^ 63 - 1.

(** [t.Sub(u)]: the difference [t - u], which Go saturates to the range of
    [time.Duration]. *)
Definition Time_Sub (t u : time_Time) : time_Duration :=
  if t - u <? minDuration then minDuration
  else if maxDuration <? t - u then maxDuration
  else t - u.

(** ** Event types and log entries *)

(** [type EventType string]: the hooks convert it with [string(...)]. *)
Definition EventType : Type := string.

(** Modelled from the spec: the declaration of the five [EventType]
    constants is not among the sources, so their values are parameters.
    The [switch] of [OnAfterEvent] lists all five as case constants, which
    the Go compiler accepts only when they are pairwise different. *)
Class EventTypes : Type := {
  EventEnforce : EventType;
  EventAddPolicy : EventType;
  EventRemovePolicy : EventType;
  EventLoadPolicy : EventType;
  EventSavePolicy : EventType;
  EventTypes_distinct :
    NoDup [EventEnforce; EventAddPolicy; EventRemovePolicy;
           EventLoadPolicy; EventSavePolicy]
}.

(** Modelled from the spec: the declaration of [LogEntry] is not among the
    sources; these are the fields that the hooks, the tests and the example
    read and write. [RuleCount] is a Go [int], whose conversion [int64(...)]
    keeps the value. *)
Record LogEntry : Type := {
  IsActive : bool;
  entry_EventType : EventType;
  StartTime : time_Time;
  EndTime : time_Time;
  Duration : time_Duration;
  Subject : string;
  Object : string;
  Action : string;
  Domain : string;
  Allowed : bool;
  RuleCount : Z;
  Error : error
}.

(** Field assignments [entry.F = v]. *)
Definition set_IsActive (v : bool) (e : LogEntry) : LogEntry :=
  {| IsActive := v; entry_EventType := entry_EventType e;
     StartTime := StartTime e; EndTime := EndTime e; Duration := Duration e;
     Subject := Subject e; Object := Object e; Action := Action e;
     Domain := Domain e; Allowed := Allowed e; RuleCount := RuleCount e;
     Error := Error e |}.

Definition set_StartTime (v : time_Time) (e : LogEntry) : LogEntry :=
  {| IsActive := IsActive e; entry_EventType := entry_EventType e;
     StartTime := v; EndTime := EndTime e; Duration := Duration e;
     Subject := Subject e; Object := Object e; Action := Action e;
     Domain := Domain e; Allowed := Allowed e; RuleCount := RuleCount e;
     Error := Error e |}.

Definition set_EndTime (v : time_Time) (e : LogEntry) : LogEntry :=
  {| IsActive := IsActive e; entry_EventType := entry_EventType e;
     StartTime := StartTime e; EndTime := v; Duration := Duration e;
     Subject := Subject e; Object := Object e; Action := Action e;
     Domain := Domain e; Allowed := Allowed e; RuleCount := RuleCount e;
     Error := Error e |}.

Definition set_Duration (v : time_Duration) (e : LogEntry) : LogEntry :=
  {| IsActive := IsActive e; entry_EventType := entry_EventType e;
     StartTime := StartTime e; EndTime := EndTime e; Duration := v;
     Subject := Subject e; Object := Object e; Action := Action e;
     Domain := Domain e; Allowed := Allowed e; RuleCount := RuleCount e;
     Error := Error e |}.

(** ** The metrics backend as the logger sees it *)

Inductive InstrumentKind : Type :=
| Float64HistogramKind
| Int64CounterKind
| Int64GaugeKind.

(** [metric.WithDescription] and [metric.WithUnit]. *)
Inductive InstrumentOption : Type :=
| WithDescription (text : string)
| WithUnit (unit : string).

(** An instrument is known by what it was created with. *)
Record Instrument : Type := {
  inst_kind : InstrumentKind;
  inst_name : string;
  inst_options : list InstrumentOption
}.

(** The unit an instrument was created with: the last [WithUnit] option,
    the empty string without one. *)
Definition inst_unit (i : Instrument) : string :=
  foldl (λ u o, match o with WithUnit s => s | WithDescription _ => u end)
        "" (inst_options i).

(** [attribute.String(key, value)]. *)
Definition KeyValue : Type := string * string.
Definition attribute_String (key value : string) : KeyValue := (key, value).

(** The number handed to an instrument: [Float64Seconds d] is the float64
    that [d.Seconds()] returns for the duration [d], kept symbolic;
    [Int64 n] is an int64. *)
Inductive Value : Type :=
| Float64Seconds (d : time_Duration)
| Int64 (n : Z).

(** What the logger does to the outside, in program order. *)
Inductive Effect : Type :=
| InstrRecord (i : Instrument) (ctx : context_Context) (v : Value)
              (attrs : list KeyValue)
| InstrAdd (i : Instrument) (ctx : context_Context) (incr : Z)
           (attrs : list KeyValue)
| CallbackCall (entry : LogEntry).

(** A [metric.Meter]: the creation calls it has received so far, oldest
    first, and its policy, which given those calls answers a new one with
    [nil] or with an error. *)
Record Meter : Type := {
  calls : list Instrument;
  rejects : list Instrument → Instrument → error
}.

Definition meter_create (k : InstrumentKind) (name : string)
    (opts : list InstrumentOption) (m : Meter) : (Instrument * error) * Meter :=
  let i := {| inst_kind := k; inst_name := name; inst_options := opts |} in
  ((i, rejects m (calls m) i),
   {| calls := calls m ++ [i]; rejects := rejects m |}).

Definition Float64Histogram := meter_create Float64HistogramKind.
Definition Int64Counter := meter_create Int64CounterKind.
Definition Int64Gauge := meter_create Int64GaugeKind.

(** [metric.MeterProvider]: [provider.Meter(name)] hands out a meter. *)
Definition MeterProvider : Type := string → Meter.

(** ** Creating instruments one after the other

    Both constructors create the five instruments in sequence and stop at
    the first error. [Reg A] is a computation on the meter that yields an
    [A] or the error it stopped with. *)
Definition Reg (A : Type) : Type := Meter → (GoError + A) * Meter.

Global Instance Reg_ret : MRet Reg := λ A a m, (inr a, m).

Global Instance Reg_bind : MBind Reg := λ A B f c m,
  match c m with
  | (inl err, m') => (inl err, m')
  | (inr a, m') => f a m'
  end.

(** [x, err = call; if err != nil { leave with err }]. *)
Definition checked (call : Meter → (Instrument * error) * Meter) : Reg Instrument :=
  λ m, match call m with
       | ((_, Some err), m') => (inl err, m')
       | ((i, None), m') => (inr i, m')
       end.

(** Leaving with [return nil, err], arriving at [return logger, nil]. *)
Definition returning {A : Type} (c : Reg A) (m : Meter) : (option A * error) * Meter :=
  match c m with
  | (inl err, m') => ((None, Some err), m')
  | (inr a, m') => ((Some a, None), m')
  end.

(** A call that returns a value or panics. *)
Inductive outcome (A : Type) : Type :=
| Returns (a : A)
| Panics (err : GoError).
Arguments Returns {A} a.
Arguments Panics {A} err.

(** Leaving with [panic(err)], arriving at [return logger]. *)
Definition panicking {A : Type} (c : Reg A) (m : Meter) : outcome A * Meter :=
  match c m with
  | (inl err, m') => (Panics err, m')
  | (inr a, m') => (Returns a, m')
  end.

(** The user callback [func(entry *LogEntry) error]: it may write to the
    entry it is handed, and returns an error or [nil]. The function is what
    the closure does on one invocation; a closure may keep state of its own
    from one invocation to the next, so nothing below compares the outcomes
    of two invocations of a callback. *)
Definition Callback : Type := LogEntry → LogEntry * error.

(** ** The logger built from a meter and a context *)
Module MeterLogger.

Record OpenTelemetryLogger : Type := {
  enabledEventTypes : gmap EventType bool;
  callback : option Callback;
  enforceDuration : Instrument;
  enforceTotal : Instrument;
  policyOpsTotal : Instrument;
  policyOpsDuration : Instrument;
  policyRulesCount : Instrument;
  ctx : context_Context
}.

Definition NewOpenTelemetryLoggerWithContext (ctx : context_Context)
    (meter : Meter) : (option OpenTelemetryLogger * error) * Meter :=
  returning (
    enforceDuration ← checked (Float64Histogram "casbin.enforce.duration"
      [WithDescription "Duration of enforce requests in seconds"; WithUnit "s"]);
    enforceTotal ← checked (Int64Counter "casbin.enforce.total"
      [WithDescription "Total number of enforce requests"]);
    policyOpsTotal ← checked (Int64Counter "casbin.policy.operations.total"
      [WithDescription "Total number of policy operations"]);
    policyOpsDuration ← checked (Float64Histogram "casbin.policy.operations.duration"
      [WithDescription "Duration of policy operations in seconds"; WithUnit "s"]);
    policyRulesCount ← checked (Int64Gauge "casbin.policy.rules.count"
      [WithDescription "Number of policy rules affected by operations"]);
    mret {| enabledEventTypes := ∅; callback := None;
            enforceDuration := enforceDuration; enforceTotal := enforceTotal;
            policyOpsTotal := policyOpsTotal;
            policyOpsDuration := policyOpsDuration;
            policyRulesCount := policyRulesCount; ctx := ctx |}) meter.

Definition NewOpenTelemetryLogger (meter : Meter) :
    (option OpenTelemetryLogger * error) * Meter :=
  NewOpenTelemetryLoggerWithContext context_Background meter.

Definition SetEventTypes (l : OpenTelemetryLogger) (eventTypes : list EventType) :
    OpenTelemetryLogger * error :=
  ({| enabledEventTypes :=
        foldl (λ m eventType, <[eventType := true]> m) ∅ eventTypes;
      callback := callback l;
      enforceDuration := enforceDuration l; enforceTotal := enforceTotal l;
      policyOpsTotal := policyOpsTotal l;
      policyOpsDuration := policyOpsDuration l;
      policyRulesCount := policyRulesCount l; ctx := ctx l |}, None).

Definition OnBeforeEvent (l : OpenTelemetryLogger) (now : time_Time)
    (entry : LogEntry) : LogEntry * error :=
  if bool_decide (0 < size (enabledEventTypes l))%nat
     && negb (default false (enabledEventTypes l !! entry_EventType entry))
  then (set_IsActive false entry, None)
  else (set_StartTime now (set_IsActive true entry), None).

Definition SetLogCallback (l : OpenTelemetryLogger) (cb : option Callback) :
    OpenTelemetryLogger * error :=
  ({| enabledEventTypes := enabledEventTypes l; callback := cb;
      enforceDuration := enforceDuration l; enforceTotal := enforceTotal l;
      policyOpsTotal := policyOpsTotal l;
      policyOpsDuration := policyOpsDuration l;
      policyRulesCount := policyRulesCount l; ctx := ctx l |}, None).

Definition recordEnforceMetrics (l : OpenTelemetryLogger) (entry : LogEntry) :
    list Effect :=
  let domain := if String.eqb (Domain entry) "" then "default" else Domain entry in
  let allowed := if Allowed entry then "true" else "false" in
  let attrs := [attribute_String "allowed" allowed;
                attribute_String "domain" domain] in
  [InstrRecord (enforceDuration l) (ctx l) (Float64Seconds (Duration entry)) attrs;
   InstrAdd (enforceTotal l) (ctx l) 1 attrs].

Definition recordPolicyMetrics (l : OpenTelemetryLogger) (entry : LogEntry) :
    list Effect :=
  let operation : string := entry_EventType entry in
  let success := if Error entry is Some _ then "false" else "true" in
  let opsAttrs := [attribute_String "operation" operation;
                   attribute_String "success" success] in
  let durationAttrs := [attribute_String "operation" operation] in
  [InstrAdd (policyOpsTotal l) (ctx l) 1 opsAttrs;
   InstrRecord (policyOpsDuration l) (ctx l)
     (Float64Seconds (Duration entry)) durationAttrs]
  ++ (if 0 <? RuleCount entry
      then let countAttrs := [attribute_String "operation" operation] in
           [InstrRecord (policyRulesCount l) (ctx l)
              (Int64 (RuleCount entry)) countAttrs]
      else []).

Section hooks.
Context `{EventTypes}.

Definition OnAfterEvent (l : OpenTelemetryLogger) (now : time_Time)
    (entry : LogEntry) : LogEntry * error * list Effect :=
  if negb (IsActive entry) then (entry, None, [])
  else
    let entry := set_EndTime now entry in
    let entry := set_Duration (Time_Sub (EndTime entry) (StartTime entry)) entry in
    let metrics :=
      if String.eqb (entry_EventType entry) EventEnforce
      then recordEnforceMetrics l entry
      else if String.eqb (entry_EventType entry) EventAddPolicy
              || String.eqb (entry_EventType entry) EventRemovePolicy
              || String.eqb (entry_EventType entry) EventLoadPolicy
              || String.eqb (entry_EventType entry) EventSavePolicy
      then recordPolicyMetrics l entry
      else [] in
    match callback l with
    | Some cb =>
        let '(entry', err) := cb entry in
        (entry', err, metrics ++ [CallbackCall entry])
    | None => (entry, None, metrics)
    end.

End hooks.

Definition GetEnforceDuration (l : OpenTelemetryLogger) := enforceDuration l.
Definition GetEnforceTotal (l : OpenTelemetryLogger) := enforceTotal l.
Definition GetPolicyOpsTotal (l : OpenTelemetryLogger) := policyOpsTotal l.
Definition GetPolicyOpsDuration (l : OpenTelemetryLogger) := policyOpsDuration l.
Definition GetPolicyRulesCount (l : OpenTelemetryLogger) := policyRulesCount l.

End MeterLogger.

(** ** The logger built from a meter provider *)
Module ProviderLogger.

Definition meterName : string := "github.com/casbin/casbin-opentelemetry-logger".

Record OpenTelemetryLogger : Type := {
  enabledEventTypes : gmap EventType bool;
  callback : option Callback;
  meter : Meter;
  enforceDuration : Instrument;
  enforceTotal : Instrument;
  policyOpsTotal : Instrument;
  policyOpsDuration : Instrument;
  policyRulesCount : Instrument
}.

(** The field [meter] refers to the meter that the provider handed out; the
    logger holds it as it stands once the instruments are created. *)
Definition held_meter : Reg Meter := λ m, (inr m, m).

Definition NewOpenTelemetryLoggerWithMeterProvider (provider : MeterProvider) :
    outcome OpenTelemetryLogger * Meter :=
  let meter := provider meterName in
  panicking (
    enforceDuration ← checked (Float64Histogram "casbin.enforce.duration"
      [WithDescription "Duration of enforce requests in seconds"; WithUnit "s"]);
    enforceTotal ← checked (Int64Counter "casbin.enforce.total"
      [WithDescription "Total number of enforce requests"]);
    policyOpsTotal ← checked (Int64Counter "casbin.policy.operations.total"
      [WithDescription "Total number of policy operations"]);
    policyOpsDuration ← checked (Float64Histogram "casbin.policy.operations.duration"
      [WithDescription "Duration of policy operations in seconds"; WithUnit "s"]);
    policyRulesCount ← checked (Int64Gauge "casbin.policy.rules.count"
      [WithDescription "Number of policy rules affected by operations"]);
    meter ← held_meter;
    mret {| enabledEventTypes := ∅; callback := None; meter := meter;
            enforceDuration := enforceDuration; enforceTotal := enforceTotal;
            policyOpsTotal := policyOpsTotal;
            policyOpsDuration := policyOpsDuration;
            policyRulesCount := policyRulesCount |}) meter.

(** [otel.GetMeterProvider()] is the process-wide provider, an input here. *)
Definition NewOpenTelemetryLogger (otel_GetMeterProvider : MeterProvider) :
    outcome OpenTelemetryLogger * Meter :=
  NewOpenTelemetryLoggerWithMeterProvider otel_GetMeterProvider.

Definition SetEventTypes (o : OpenTelemetryLogger) (eventTypes : list EventType) :
    OpenTelemetryLogger * error :=
  ({| enabledEventTypes :=
        foldl (λ m eventType, <[eventType := true]> m) ∅ eventTypes;
      callback := callback o; meter := meter o;
      enforceDuration := enforceDuration o; enforceTotal := enforceTotal o;
      policyOpsTotal := policyOpsTotal o;
      policyOpsDuration := policyOpsDuration o;
      policyRulesCount := policyRulesCount o |}, None).

Definition OnBeforeEvent (o : OpenTelemetryLogger) (now : time_Time)
    (entry : LogEntry) : LogEntry * error :=
  if bool_decide (0 < size (enabledEventTypes o))%nat
     && negb (default false (enabledEventTypes o !! entry_EventType entry))
  then (set_IsActive false entry, None)
  else (set_StartTime now (set_IsActive true entry), None).

Definition SetLogCallback (o : OpenTelemetryLogger) (cb : option Callback) :
    OpenTelemetryLogger * error :=
  ({| enabledEventTypes := enabledEventTypes o; callback := cb;
      meter := meter o;
      enforceDuration := enforceDuration o; enforceTotal := enforceTotal o;
      policyOpsTotal := policyOpsTotal o;
      policyOpsDuration := policyOpsDuration o;
      policyRulesCount := policyRulesCount o |}, None).

Definition recordEnforceMetrics (o : OpenTelemetryLogger) (entry : LogEntry) :
    list Effect :=
  let domain := if String.eqb (Domain entry) "" then "default" else Domain entry in
  let allowed := if Allowed entry then "true" else "false" in
  let ctx := context_Background in
  let attrs := [attribute_String "allowed" allowed;
                attribute_String "domain" domain] in
  [InstrRecord (enforceDuration o) ctx (Float64Seconds (Duration entry)) attrs;
   InstrAdd (enforceTotal o) ctx 1 attrs].

Definition recordPolicyMetrics (o : OpenTelemetryLogger) (entry : LogEntry) :
    list Effect :=
  let operation : string := entry_EventType entry in
  let success := if Error entry is Some _ then "false" else "true" in
  let ctx := context_Background in
  let opAttrs := [attribute_String "operation" operation;
                  attribute_String "success" success] in
  let durationAttrs := [attribute_String "operation" operation] in
  [InstrAdd (policyOpsTotal o) ctx 1 opAttrs;
   InstrRecord (policyOpsDuration o) ctx
     (Float64Seconds (Duration entry)) durationAttrs]
  ++ (if 0 <? RuleCount entry
      then [InstrRecord (policyRulesCount o) ctx
              (Int64 (RuleCount entry)) durationAttrs]
      else []).

Section hooks.
Context `{EventTypes}.

Definition OnAfterEvent (o : OpenTelemetryLogger) (now : time_Time)
    (entry : LogEntry) : LogEntry * error * list Effect :=
  if negb (IsActive entry) then (entry, None, [])
  else
    let entry := set_EndTime now entry in
    let entry := set_Duration (Time_Sub (EndTime entry) (StartTime entry)) entry in
    let metrics :=
      if String.eqb (entry_EventType entry) EventEnforce
      then recordEnforceMetrics o entry
      else if String.eqb (entry_EventType entry) EventAddPolicy
              || String.eqb (entry_EventType entry) EventRemovePolicy
              || String.eqb (entry_EventType entry) EventLoadPolicy
              || String.eqb (entry_EventType entry) EventSavePolicy
      then recordPolicyMetrics o entry
      else [] in
    match callback o with
    | Some cb =>
        let '(entry', err) := cb entry in
        (entry', err, metrics ++ [CallbackCall entry])
    | None => (entry, None, metrics)
    end.

End hooks.

Definition GetMeter (o : OpenTelemetryLogger) : Meter := meter o.

End ProviderLogger.

(** ** The host calling a hook again and again

    [repeatedly hook nows entry] calls [hook] once per clock reading of
    [nows] on the same entry, and collects the errors returned and the
    trace of all calls. *)
Fixpoint repeatedly (hook : time_Time → LogEntry → LogEntry * error * list Effect)
    (nows : list time_Time) (entry : LogEntry) :
    LogEntry * list error * list Effect :=
  match nows with
  | [] => (entry, [], [])
  | now :: nows' =>
      let '(entry1, err, trace) := hook now entry in
      let '(entry2, errs, trace') := repeatedly hook nows' entry1 in
      (entry2, err :: errs, trace ++ trace')
  end.

(** ** Reading a trace *)

Definition is_callback (x : Effect) : bool :=
  match x with CallbackCall _ => true | _ => false end.

(** The calls made on instruments, and the callback invocations. *)
Definition measurements (trace : list Effect) : list Effect :=
  filter (λ x, is_callback x = false) trace.

Definition callback_calls (trace : list Effect) : list Effect :=
  filter (λ x, is_callback x = true) trace.

(** A measurement with its context argument left out. *)
Definition without_ctx (x : Effect) : Effect :=
  match x with
  | InstrRecord i _ v attrs => InstrRecord i context_Background v attrs
  | InstrAdd i _ n attrs => InstrAdd i context_Background n attrs
  | CallbackCall entry => CallbackCall entry
  end.

Definition effect_ctx (x : Effect) : option context_Context :=
  match x with
  | InstrRecord _ c _ _ => Some c
  | InstrAdd _ c _ _ => Some c
  | CallbackCall _ => None
  end.

(** ** Notions used to state the properties *)

(** The enabled-event set is kept as a map to [bool]: an event type is a
    member when the map sends it to [true]. *)
Definition enabled (m : gmap EventType bool) (k : EventType) : Prop :=
  m !! k = Some true.

(** What is asked of the gate, for the enabled-event map [m], the clock
    reading [now], the entry handed in and the result [r] of the hook. *)
Definition gated (m : gmap EventType bool) (now : time_Time) (entry : LogEntry)
    (r : LogEntry * error) : Prop :=
  (m ≠ ∅ ∧ ¬ enabled m (entry_EventType entry) →
     r.1 = set_IsActive false entry
     ∧ IsActive r.1 = false ∧ StartTime r.1 = StartTime entry)
  ∧ (m = ∅ ∨ enabled m (entry_EventType entry) →
     r.1 = set_StartTime now (set_IsActive true entry)
     ∧ IsActive r.1 = true ∧ StartTime r.1 = now)
  ∧ r.2 = None.

(** The entry once [OnAfterEvent] has set [EndTime] and [Duration]. *)
Definition stamped (now : time_Time) (entry : LogEntry) : LogEntry :=
  set_Duration (Time_Sub now (StartTime entry)) (set_EndTime now entry).

(** The [switch] of [OnAfterEvent]: the measurements made for an entry, by
    event type, given what the two recording methods do. *)
Definition metrics_of `{EventTypes} (enforce policy : LogEntry → list Effect)
    (entry : LogEntry) : list Effect :=
  if String.eqb (entry_EventType entry) EventEnforce then enforce entry
  else if String.eqb (entry_EventType entry) EventAddPolicy
          || String.eqb (entry_EventType entry) EventRemovePolicy
          || String.eqb (entry_EventType entry) EventLoadPolicy
          || String.eqb (entry_EventType entry) EventSavePolicy
  then policy entry
  else [].

(** The entry as the callback leaves it; without a callback it is left as
    it is. *)
Definition after_callback (cb : option Callback) (e : LogEntry) : LogEntry :=
  match cb with
  | Some f => (f e).1
  | None => e
  end.

(** What is asked of [OnAfterEvent] about the callback [cb], for the entry
    [e] it has stamped and its result [r]: with a callback, the trace is the
    measurements followed by one call of the callback on [e], and the error
    returned is the callback's; without one, no call and [nil]. *)
Definition calls_back (cb : option Callback) (e : LogEntry)
    (r : LogEntry * error * list Effect) : Prop :=
  match cb with
  | Some f => r.2 = measurements r.2 ++ [CallbackCall e] ∧ r.1.2 = (f e).2
  | None => callback_calls r.2 = [] ∧ r.1.2 = None
  end.

(** The five instruments, in the order in which the constructors create
    them. *)
Definition casbin_instruments : list Instrument :=
  [ {| inst_kind := Float64HistogramKind;
       inst_name := "casbin.enforce.duration";
       inst_options := [WithDescription "Duration of enforce requests in seconds";
                        WithUnit "s"] |};
    {| inst_kind := Int64CounterKind;
       inst_name := "casbin.enforce.total";
       inst_options := [WithDescription "Total number of enforce requests"] |};
    {| inst_kind := Int64CounterKind;
       inst_name := "casbin.policy.operations.total";
       inst_options := [WithDescription "Total number of policy operations"] |};
    {| inst_kind := Float64HistogramKind;
       inst_name := "casbin.policy.operations.duration";
       inst_options := [WithDescription "Duration of policy operations in seconds";
                        WithUnit "s"] |};
    {| inst_kind := Int64GaugeKind;
       inst_name := "casbin.policy.rules.count";
       inst_options := [WithDescription "Number of policy rules affected by operations"] |} ].

(** The first error with which a meter answers a sequence of creation
    calls, [seen] being the calls it received before; [nil] when it accepts
    them all. *)
Fixpoint first_error (policy : list Instrument → Instrument → error)
    (seen todo : list Instrument) : error :=
  match todo with
  | [] => None
  | i :: todo' =>
      match policy seen i with
      | Some err => Some err
      | None => first_error policy (seen ++ [i]) todo'
      end
  end.

(** What is asked of a constructor run on the meter [m]: [built] is the
    list of the five instruments of the logger it returned, if it returned
    one, [err] the error it returned or panicked with, and [m'] the meter
    afterwards. When the meter accepts all five creations, the logger holds
    them and there is no error; when it rejects one, there is no logger, the
    error is that of the first rejection, and no creation outside the five
    was asked for. *)
Definition built_on (m : Meter) (built : option (list Instrument)) (err : error)
    (m' : Meter) : Prop :=
  match first_error (rejects m) (calls m) casbin_instruments with
  | None =>
      built = Some casbin_instruments ∧ err = None
      ∧ calls m' = calls m ++ casbin_instruments
  | Some e =>
      built = None ∧ err = Some e
      ∧ ∃ n, (0 < n ≤ 5)%nat ∧ calls m' = calls m ++ take n casbin_instruments
  end.

Definition MeterLogger_instruments (l : MeterLogger.OpenTelemetryLogger) :
    list Instrument :=
  [MeterLogger.enforceDuration l; MeterLogger.enforceTotal l;
   MeterLogger.policyOpsTotal l; MeterLogger.policyOpsDuration l;
   MeterLogger.policyRulesCount l].

Definition ProviderLogger_instruments (o : ProviderLogger.OpenTelemetryLogger) :
    list Instrument :=
  [ProviderLogger.enforceDuration o; ProviderLogger.enforceTotal o;
   ProviderLogger.policyOpsTotal o; ProviderLogger.policyOpsDuration o;
   ProviderLogger.policyRulesCount o].

(** The value returned and the error panicked with, of a call that returns
    or panics. *)
Definition returned {A : Type} (r : outcome A) : option A :=
  match r with Returns a => Some a | Panics _ => None end.

Definition panicked {A : Type} (r : outcome A) : error :=
  match r with Returns _ => None | Panics err => Some err end.

(** The attributes a measurement carries. *)
Definition effect_attrs (x : Effect) : list KeyValue :=
  match x with
  | InstrRecord _ _ _ attrs => attrs
  | InstrAdd _ _ _ attrs => attrs
  | CallbackCall _ => []
  end.

(** The event types of casbin, for the examples. *)
Instance casbin_EventTypes : EventTypes := {|
  EventEnforce := "enforce";
  EventAddPolicy := "addPolicy";
  EventRemovePolicy := "removePolicy";
  EventLoadPolicy := "loadPolicy";
  EventSavePolicy := "savePolicy";
  EventTypes_distinct :=
    ltac:(apply (bool_decide_unpack _); vm_compute; exact I)
|}.

(** A logger of each kind and an entry, for the examples. *)
Definition sample_instrument (k : InstrumentKind) (name : string) : Instrument :=
  {| inst_kind := k; inst_name := name; inst_options := [] |}.

Definition sample_MeterLogger (enabledTypes : gmap EventType bool)
    (cb : option Callback) : MeterLogger.OpenTelemetryLogger :=
  {| MeterLogger.enabledEventTypes := enabledTypes;
     MeterLogger.callback := cb;
     MeterLogger.enforceDuration := sample_instrument Float64HistogramKind "d1";
     MeterLogger.enforceTotal := sample_instrument Int64CounterKind "c1";
     MeterLogger.policyOpsTotal := sample_instrument Int64CounterKind "c2";
     MeterLogger.policyOpsDuration := sample_instrument Float64HistogramKind "d2";
     MeterLogger.policyRulesCount := sample_instrument Int64GaugeKind "g";
     MeterLogger.ctx := context_Derived 7 |}.

Definition sample_ProviderLogger (enabledTypes : gmap EventType bool)
    (cb : option Callback) : ProviderLogger.OpenTelemetryLogger :=
  {| ProviderLogger.enabledEventTypes := enabledTypes;
     ProviderLogger.callback := cb;
     ProviderLogger.meter := {| calls := []; rejects := λ _ _, None |};
     ProviderLogger.enforceDuration := sample_instrument Float64HistogramKind "d1";
     ProviderLogger.enforceTotal := sample_instrument Int64CounterKind "c1";
     ProviderLogger.policyOpsTotal := sample_instrument Int64CounterKind "c2";
     ProviderLogger.policyOpsDuration := sample_instrument Float64HistogramKind "d2";
     ProviderLogger.policyRulesCount := sample_instrument Int64GaugeKind "g" |}.

Definition sample_entry (active : bool) (kind : EventType) (start : time_Time)
    (domain : string) (allowed : bool) (ruleCount : Z) (err : error) : LogEntry :=
  {| IsActive := active; entry_EventType := kind; StartTime := start;
     EndTime := 0; Duration := 0; Subject := "alice"; Object := "data1";
     Action := "read"; Domain := domain; Allowed := allowed;
     RuleCount := ruleCount; Error := err |}.

(** A callback that leaves the entry alone and fails. *)
Definition failing_callback : Callback :=
  λ entry, (entry, Some (errors_New "callback error")).

(** ** Either logger behind the [Logger] interface

    Both loggers implement the interface [Logger] of the package (see
    [TestLogger_InterfaceImplementation]): [SetEventTypes], [OnBeforeEvent],
    [OnAfterEvent] and [SetLogCallback]. A [Logger] is one or the other, and
    each method is the method of the logger inside. *)
Inductive Logger : Type :=
| OfMeter (l : MeterLogger.OpenTelemetryLogger)
| OfProvider (o : ProviderLogger.OpenTelemetryLogger).

Definition Logger_enabledEventTypes (L : Logger) : gmap EventType bool :=
  match L with
  | OfMeter l => MeterLogger.enabledEventTypes l
  | OfProvider o => ProviderLogger.enabledEventTypes o
  end.

Definition Logger_callback (L : Logger) : option Callback :=
  match L with
  | OfMeter l => MeterLogger.callback l
  | OfProvider o => ProviderLogger.callback o
  end.

(** The five instruments a logger holds, in the order of creation. *)
Definition Logger_instruments (L : Logger) : list Instrument :=
  match L with
  | OfMeter l => MeterLogger_instruments l
  | OfProvider o => ProviderLogger_instruments o
  end.

(** The context a logger passes with its measurements. *)
Definition Logger_ctx (L : Logger) : context_Context :=
  match L with
  | OfMeter l => MeterLogger.ctx l
  | OfProvider _ => context_Background
  end.

Definition Logger_SetEventTypes (L : Logger) (eventTypes : list EventType) :
    Logger * error :=
  match L with
  | OfMeter l =>
      (OfMeter (MeterLogger.SetEventTypes l eventTypes).1,
       (MeterLogger.SetEventTypes l eventTypes).2)
  | OfProvider o =>
      (OfProvider (ProviderLogger.SetEventTypes o eventTypes).1,
       (ProviderLogger.SetEventTypes o eventTypes).2)
  end.

Definition Logger_SetLogCallback (L : Logger) (cb : option Callback) :
    Logger * error :=
  match L with
  | OfMeter l =>
      (OfMeter (MeterLogger.SetLogCallback l cb).1,
       (MeterLogger.SetLogCallback l cb).2)
  | OfProvider o =>
      (OfProvider (ProviderLogger.SetLogCallback o cb).1,
       (ProviderLogger.SetLogCallback o cb).2)
  end.

Definition Logger_OnBeforeEvent (L : Logger) (now : time_Time)
    (entry : LogEntry) : LogEntry * error :=
  match L with
  | OfMeter l => MeterLogger.OnBeforeEvent l now entry
  | OfProvider o => ProviderLogger.OnBeforeEvent o now entry
  end.

Definition Logger_OnAfterEvent `{EventTypes} (L : Logger) (now : time_Time)
    (entry : LogEntry) : LogEntry * error * list Effect :=
  match L with
  | OfMeter l => MeterLogger.OnAfterEvent l now entry
  | OfProvider o => ProviderLogger.OnAfterEvent o now entry
  end.

(** The logger built from a provider does what a logger built from a meter
    with the same fields and the background context does. *)
Definition as_MeterLogger (L : Logger) : MeterLogger.OpenTelemetryLogger :=
  match L with
  | OfMeter l => l
  | OfProvider o =>
      {| MeterLogger.enabledEventTypes := ProviderLogger.enabledEventTypes o;
         MeterLogger.callback := ProviderLogger.callback o;
         MeterLogger.enforceDuration := ProviderLogger.enforceDuration o;
         MeterLogger.enforceTotal := ProviderLogger.enforceTotal o;
         MeterLogger.policyOpsTotal := ProviderLogger.policyOpsTotal o;
         MeterLogger.policyOpsDuration := ProviderLogger.policyOpsDuration o;
         MeterLogger.policyRulesCount := ProviderLogger.policyRulesCount o;
         MeterLogger.ctx := context_Background |}
  end.

(** The instrument a measurement goes to and the keys of its attributes. *)
Definition effect_instrument (x : Effect) : option Instrument :=
  match x with
  | InstrRecord i _ _ _ => Some i
  | InstrAdd i _ _ _ => Some i
  | CallbackCall _ => None
  end.

(** A duration recorded on a histogram, if the effect is one. *)
Definition effect_seconds (x : Effect) : option time_Duration :=
  match x with
  | InstrRecord _ _ (Float64Seconds d) _ => Some d
  | _ => None
  end.

(** The amount added to a counter, if the effect is one. *)
Definition effect_increment (x : Effect) : option Z :=
  match x with
  | InstrAdd _ _ n _ => Some n
  | _ => None
  end.

(** Two entries that differ at most in [Subject], [Object], [Action],
    [EndTime] and [Duration]. *)
Definition same_measured_fields (e1 e2 : LogEntry) : Prop :=
  IsActive e1 = IsActive e2
  ∧ entry_EventType e1 = entry_EventType e2
  ∧ StartTime e1 = StartTime e2
  ∧ Domain e1 = Domain e2
  ∧ Allowed e1 = Allowed e2
  ∧ RuleCount e1 = RuleCount e2
  ∧ Error e1 = Error e2.

(** Two entries that differ at most in [IsActive] and the three time
    fields. *)
Definition same_host_fields (e1 e2 : LogEntry) : Prop :=
  entry_EventType e1 = entry_EventType e2
  ∧ Subject e1 = Subject e2 ∧ Object e1 = Object e2 ∧ Action e1 = Action e2
  ∧ Domain e1 = Domain e2 ∧ Allowed e1 = Allowed e2
  ∧ RuleCount e1 = RuleCount e2 ∧ Error e1 = Error e2.

(** A logger as a constructor returns it. *)
Definition constructed (L : Logger) : Prop :=
  (∃ c m l,
     (MeterLogger.NewOpenTelemetryLoggerWithContext c m).1.1 = Some l
     ∧ L = OfMeter l)
  ∨ (∃ provider o,
       (ProviderLogger.NewOpenTelemetryLoggerWithMeterProvider provider).1
       = Returns o
       ∧ L = OfProvider o).

(** The loggers a program can have: returned by a constructor, then
    configured any number of times through [SetEventTypes] and
    [SetLogCallback] (the fields are not exported). *)
Inductive reachable : Logger → Prop :=
| reachable_constructed (L : Logger) :
    constructed L → reachable L
| reachable_SetEventTypes (L : Logger) (eventTypes : list EventType) :
    reachable L → reachable (Logger_SetEventTypes L eventTypes).1
| reachable_SetLogCallback (L : Logger) (cb : option Callback) :
    reachable L → reachable (Logger_SetLogCallback L cb).1.

(** The measurements of a trace that go to the instrument called [name]. *)
Definition measurements_on (name : string) (trace : list Effect) : list Effect :=
  filter (λ x, inst_name <$> effect_instrument x = Some name) trace.

(** A meter that accepts everything, one that accepts no second counter,
    and the logger that [NewOpenTelemetryLogger] returns on the first. *)
Definition accepting_meter : Meter :=
  {| calls := []; rejects := λ _ _, None |}.

Definition one_counter_meter : Meter :=
  let is_counter i :=
    match inst_kind i with Int64CounterKind => true | _ => false end in
  {| calls := [];
     rejects := λ seen i,
       if is_counter i && existsb is_counter seen
       then Some (errors_New "one counter only") else None |}.

Definition fresh_MeterLogger : MeterLogger.OpenTelemetryLogger :=
  default (sample_MeterLogger ∅ None)
    (MeterLogger.NewOpenTelemetryLogger accepting_meter).1.1.

(** * Properties *)

(** ** Durations *)

Lemma Time_Sub_exact (t u : time_Time) :
  minDuration ≤ t - u ≤ maxDuration → Time_Sub t u = t - u.
Proof.
  intros [Hlo Hhi]. unfold Time_Sub.
  destruct (Z.ltb_spec (t - u) minDuration) as [Hlt|_]; [lia|].
  destruct (Z.ltb_spec maxDuration (t - u)) as [Hgt|_]; [lia|reflexivity].
Qed.

Lemma Time_Sub_sign (t u : time_Time) : u ≤ t ↔ 0 ≤ Time_Sub t u.
Proof.
  unfold Time_Sub, minDuration, maxDuration.
  destruct (Z.ltb_spec (t - u) (- 2 ^ 63)) as [Hlt|Hge].
  - split; lia.
  - destruct (Z.ltb_spec (2 ^ 63 - 1) (t - u)) as [Hgt|Hle]; split; lia.
Qed.

Lemma Time_Sub_range (t u : time_Time) :
  minDuration ≤ Time_Sub t u ≤ maxDuration.
Proof.
  unfold Time_Sub, minDuration, maxDuration.
  destruct (Z.ltb_spec (t - u) (- 2 ^ 63)) as [Hlt|Hge]; [lia|].
  destruct (Z.ltb_spec (2 ^ 63 - 1) (t - u)) as [Hgt|Hle]; lia.
Qed.

(** ** The gate *)

(** [len(m) > 0] holds of every map but the empty one. *)
Lemma len_positive (m : gmap EventType bool) :
  bool_decide (0 < size m)%nat = true ↔ m ≠ ∅.
Proof.
  rewrite bool_decide_eq_true, <- map_size_non_empty_iff. lia.
Qed.

(** [m[k]] of a Go map, with [false] for an absent key, is [true] exactly
    for the members. *)
Lemma index_true (m : gmap EventType bool) (k : EventType) :
  default false (m !! k) = true ↔ enabled m k.
Proof.
  unfold enabled. destruct (m !! k) as [[|]|]; simpl; split; congruence.
Qed.

(** The condition under which [OnBeforeEvent] filters an entry out. *)
Lemma gate_condition (m : gmap EventType bool) (k : EventType) :
  bool_decide (0 < size m)%nat && negb (default false (m !! k)) = true
  ↔ m ≠ ∅ ∧ ¬ enabled m k.
Proof.
  rewrite andb_true_iff, negb_true_iff, len_positive, <- index_true.
  destruct (default false (m !! k)); intuition congruence.
Qed.

Lemma gate_decides (m : gmap EventType bool) (now : time_Time) (entry : LogEntry) :
  gated m now entry
    (if bool_decide (0 < size m)%nat
        && negb (default false (m !! entry_EventType entry))
     then (set_IsActive false entry, None)
     else (set_StartTime now (set_IsActive true entry), None)).
Proof.
  destruct (bool_decide (0 < size m)%nat
            && negb (default false (m !! entry_EventType entry))) eqn:Hgate.
  - apply gate_condition in Hgate as [Hne Hout].
    split; [|split]; simpl.
    + intros _. repeat split.
    + intros [Hempty|Hin]; contradiction.
    + reflexivity.
  - assert (¬ (m ≠ ∅ ∧ ¬ enabled m (entry_EventType entry))) as Hin.
    { rewrite <- gate_condition, Hgate. discriminate. }
    split; [|split]; simpl.
    + intros Hout. contradiction.
    + intros _. repeat split.
    + reflexivity.
Qed.

(** C1. [OnBeforeEvent] marks the entry inactive and leaves [StartTime] (and
    every other field) as it was when the enabled-event set is non-empty and
    the entry's event type is not a member; when the set is empty or the
    event type is a member, it marks the entry active and sets [StartTime]
    to the current time. It returns [nil] either way. Both loggers. *)
Theorem OnBeforeEvent_gate (lA : MeterLogger.OpenTelemetryLogger)
    (lB : ProviderLogger.OpenTelemetryLogger) (now : time_Time)
    (entry : LogEntry) :
  gated (MeterLogger.enabledEventTypes lA) now entry
        (MeterLogger.OnBeforeEvent lA now entry)
  ∧ gated (ProviderLogger.enabledEventTypes lB) now entry
          (ProviderLogger.OnBeforeEvent lB now entry).
Proof.
  split.
  - unfold MeterLogger.OnBeforeEvent. apply gate_decides.
  - unfold ProviderLogger.OnBeforeEvent. apply gate_decides.
Qed.

(** With only ["enforce"] enabled, an ["addPolicy"] entry is filtered out by
    the first logger and an ["enforce"] entry is let through by the second. *)
Lemma OnBeforeEvent_gate_witness :
  (MeterLogger.OnBeforeEvent (sample_MeterLogger {[ "enforce" := true ]} None)
     1000 (sample_entry true "addPolicy" 7 "" false 5 None)).1
  = sample_entry false "addPolicy" 7 "" false 5 None
  ∧ (ProviderLogger.OnBeforeEvent
       (sample_ProviderLogger {[ "enforce" := true ]} None)
       1000 (sample_entry false "enforce" 7 "" false 0 None)).1
  = sample_entry true "enforce" 1000 "" false 0 None.
Proof.
  split.
  - refine (proj1 (proj1 (proj1 (OnBeforeEvent_gate
      (sample_MeterLogger {[ "enforce" := true ]} None)
      (sample_ProviderLogger ∅ None) 1000
      (sample_entry true "addPolicy" 7 "" false 5 None))) _)).
    split; [apply insert_non_empty|]. vm_compute. discriminate.
  - refine (proj1 (proj1 (proj2 (proj2 (OnBeforeEvent_gate
      (sample_MeterLogger ∅ None)
      (sample_ProviderLogger {[ "enforce" := true ]} None) 1000
      (sample_entry false "enforce" 7 "" false 0 None)))) _)).
    right. vm_compute. reflexivity.
Defined.

(** The three cases of [TestOnBeforeEvent]. *)
Example OnBeforeEvent_no_filter :
  MeterLogger.OnBeforeEvent (sample_MeterLogger ∅ None) 1000
    (sample_entry false "enforce" 0 "" false 0 None)
  = (sample_entry true "enforce" 1000 "" false 0 None, None).
Proof. reflexivity. Qed.

Example OnBeforeEvent_enabled_type :
  MeterLogger.OnBeforeEvent (sample_MeterLogger {[ "enforce" := true ]} None) 1000
    (sample_entry false "enforce" 0 "" false 0 None)
  = (sample_entry true "enforce" 1000 "" false 0 None, None).
Proof. reflexivity. Qed.

Example OnBeforeEvent_disabled_type :
  ProviderLogger.OnBeforeEvent
    (sample_ProviderLogger {[ "enforce" := true ]} None) 1000
    (sample_entry true "addPolicy" 0 "" false 5 None)
  = (sample_entry false "addPolicy" 0 "" false 5 None, None).
Proof. reflexivity. Qed.

(** ** The recorder *)

Lemma measurements_app (xs ys : list Effect) :
  measurements (xs ++ ys) = measurements xs ++ measurements ys.
Proof. unfold measurements. apply filter_app. Qed.

Lemma callback_calls_app (xs ys : list Effect) :
  callback_calls (xs ++ ys) = callback_calls xs ++ callback_calls ys.
Proof. unfold callback_calls. apply filter_app. Qed.

(** A trace without callback calls consists of measurements only. *)
Lemma measurements_all (xs : list Effect) :
  Forall (λ x, is_callback x = false) xs →
  measurements xs = xs ∧ callback_calls xs = [].
Proof.
  induction 1 as [|x xs Hx _ [IHm IHc]]; [done|].
  unfold measurements, callback_calls in *.
  rewrite filter_cons_True by done. rewrite filter_cons_False by congruence.
  by rewrite IHm, IHc.
Qed.

Section recorder.
Context `{EventTypes}.

(** The event types of policy operations are not [EventEnforce]. *)
Lemma policy_type_dispatch (k : EventType) :
  k ∈ [EventAddPolicy; EventRemovePolicy; EventLoadPolicy; EventSavePolicy] →
  String.eqb k EventEnforce = false
  ∧ String.eqb k EventAddPolicy || String.eqb k EventRemovePolicy
    || String.eqb k EventLoadPolicy || String.eqb k EventSavePolicy = true.
Proof.
  intros Hk. split.
  - apply String.eqb_neq. intros ->.
    pose proof EventTypes_distinct as Hnd.
    apply NoDup_cons in Hnd as [Hnotin _]. contradiction.
  - rewrite !elem_of_cons in Hk.
    destruct Hk as [->|[->|[->|[->|Hk]]]];
      rewrite ?String.eqb_refl, ?orb_true_r; try reflexivity.
    by apply elem_of_nil in Hk.
Qed.

(** Any other event type falls through the [switch]. *)
Lemma unknown_type_dispatch (k : EventType) :
  k ∉ [EventEnforce; EventAddPolicy; EventRemovePolicy; EventLoadPolicy;
       EventSavePolicy] →
  String.eqb k EventEnforce = false
  ∧ String.eqb k EventAddPolicy || String.eqb k EventRemovePolicy
    || String.eqb k EventLoadPolicy || String.eqb k EventSavePolicy = false.
Proof.
  intros Hk. rewrite !not_elem_of_cons in Hk.
  destruct Hk as (H1 & H2 & H3 & H4 & H5 & _).
  apply String.eqb_neq in H1, H2, H3, H4, H5.
  by rewrite H1, H2, H3, H4, H5.
Qed.

(** [OnAfterEvent] on an active entry: stamp, measure, call back. *)
Lemma MeterLogger_OnAfterEvent_active (l : MeterLogger.OpenTelemetryLogger)
    (now : time_Time) (entry : LogEntry) :
  IsActive entry = true →
  MeterLogger.OnAfterEvent l now entry =
    let metrics := metrics_of (MeterLogger.recordEnforceMetrics l)
                     (MeterLogger.recordPolicyMetrics l) (stamped now entry) in
    match MeterLogger.callback l with
    | Some cb => ((cb (stamped now entry)).1, (cb (stamped now entry)).2,
                  metrics ++ [CallbackCall (stamped now entry)])
    | None => (stamped now entry, None, metrics)
    end.
Proof.
  intros Hactive. unfold MeterLogger.OnAfterEvent. rewrite Hactive. simpl.
  fold (stamped now entry). unfold metrics_of. simpl.
  destruct (MeterLogger.callback l) as [cb|]; [|reflexivity].
  by destruct (cb (stamped now entry)).
Qed.

Lemma ProviderLogger_OnAfterEvent_active (o : ProviderLogger.OpenTelemetryLogger)
    (now : time_Time) (entry : LogEntry) :
  IsActive entry = true →
  ProviderLogger.OnAfterEvent o now entry =
    let metrics := metrics_of (ProviderLogger.recordEnforceMetrics o)
                     (ProviderLogger.recordPolicyMetrics o) (stamped now entry) in
    match ProviderLogger.callback o with
    | Some cb => ((cb (stamped now entry)).1, (cb (stamped now entry)).2,
                  metrics ++ [CallbackCall (stamped now entry)])
    | None => (stamped now entry, None, metrics)
    end.
Proof.
  intros Hactive. unfold ProviderLogger.OnAfterEvent. rewrite Hactive. simpl.
  fold (stamped now entry). unfold metrics_of. simpl.
  destruct (ProviderLogger.callback o) as [cb|]; [|reflexivity].
  by destruct (cb (stamped now entry)).
Qed.

(** C5. On an inactive entry [OnAfterEvent], called any number of times,
    makes no measurement, calls no callback, leaves the entry as it is and
    returns [nil] each time. Both loggers. *)
Theorem OnAfterEvent_inactive (lA : MeterLogger.OpenTelemetryLogger)
    (lB : ProviderLogger.OpenTelemetryLogger) (nows : list time_Time)
    (entry : LogEntry) :
  IsActive entry = false →
  repeatedly (MeterLogger.OnAfterEvent lA) nows entry
    = (entry, replicate (length nows) None, [])
  ∧ repeatedly (ProviderLogger.OnAfterEvent lB) nows entry
    = (entry, replicate (length nows) None, []).
Proof.
  intros Hinactive. split.
  - induction nows as [|now nows IH]; [reflexivity|].
    simpl. unfold MeterLogger.OnAfterEvent at 1. rewrite Hinactive. simpl.
    by rewrite IH.
  - induction nows as [|now nows IH]; [reflexivity|].
    simpl. unfold ProviderLogger.OnAfterEvent at 1. rewrite Hinactive. simpl.
    by rewrite IH.
Qed.

(** C7, amended. On an active entry [OnAfterEvent] sets [EndTime] to the
    current time and [Duration] to [EndTime.Sub(StartTime)] before it
    measures and calls back; the entry it returns is that entry as the
    callback leaves it. The duration is the difference of the two times
    whenever that difference fits a [time.Duration], and it is not negative
    exactly when [StartTime] is not later than the current time. Both
    loggers. *)
Theorem OnAfterEvent_duration (lA : MeterLogger.OpenTelemetryLogger)
    (lB : ProviderLogger.OpenTelemetryLogger) (now : time_Time)
    (entry : LogEntry) :
  IsActive entry = true →
  let e := stamped now entry in
  (MeterLogger.OnAfterEvent lA now entry).1.1
    = after_callback (MeterLogger.callback lA) e
  ∧ (ProviderLogger.OnAfterEvent lB now entry).1.1
    = after_callback (ProviderLogger.callback lB) e
  ∧ StartTime e = StartTime entry
  ∧ EndTime e = now
  ∧ Duration e = Time_Sub (EndTime e) (StartTime e)
  ∧ (minDuration ≤ EndTime e - StartTime e ≤ maxDuration →
     Duration e = EndTime e - StartTime e)
  ∧ (StartTime entry ≤ now ↔ 0 ≤ Duration e).
Proof.
  intros Hactive e. split; [|split].
  - rewrite MeterLogger_OnAfterEvent_active by done.
    simpl. by destruct (MeterLogger.callback lA).
  - rewrite ProviderLogger_OnAfterEvent_active by done.
    simpl. by destruct (ProviderLogger.callback lB).
  - subst e. simpl. repeat split; try apply Time_Sub_sign.
    apply Time_Sub_exact.
Qed.

(** The two recording methods make measurements only. *)
Lemma metrics_of_measurements (enforce policy : LogEntry → list Effect)
    (entry : LogEntry) :
  (∀ e, Forall (λ x, is_callback x = false) (enforce e)) →
  (∀ e, Forall (λ x, is_callback x = false) (policy e)) →
  Forall (λ x, is_callback x = false) (metrics_of enforce policy entry).
Proof.
  intros Henforce Hpolicy. unfold metrics_of.
  repeat case_match; auto.
Qed.

Lemma MeterLogger_records_measurements (l : MeterLogger.OpenTelemetryLogger)
    (entry : LogEntry) :
  Forall (λ x, is_callback x = false)
    (metrics_of (MeterLogger.recordEnforceMetrics l)
       (MeterLogger.recordPolicyMetrics l) entry).
Proof.
  apply metrics_of_measurements; intros e.
  - repeat constructor.
  - unfold MeterLogger.recordPolicyMetrics.
    destruct (0 <? RuleCount e); repeat constructor.
Qed.

Lemma ProviderLogger_records_measurements
    (o : ProviderLogger.OpenTelemetryLogger) (entry : LogEntry) :
  Forall (λ x, is_callback x = false)
    (metrics_of (ProviderLogger.recordEnforceMetrics o)
       (ProviderLogger.recordPolicyMetrics o) entry).
Proof.
  apply metrics_of_measurements; intros e.
  - repeat constructor.
  - unfold ProviderLogger.recordPolicyMetrics.
    destruct (0 <? RuleCount e); repeat constructor.
Qed.

(** The measurements in the trace of [OnAfterEvent] on an active entry are
    those of its [switch], with or without a callback. *)
Lemma MeterLogger_measurements (l : MeterLogger.OpenTelemetryLogger)
    (now : time_Time) (entry : LogEntry) :
  IsActive entry = true →
  measurements (MeterLogger.OnAfterEvent l now entry).2
  = metrics_of (MeterLogger.recordEnforceMetrics l)
      (MeterLogger.recordPolicyMetrics l) (stamped now entry).
Proof.
  intros Hactive. rewrite MeterLogger_OnAfterEvent_active by done.
  pose proof (MeterLogger_records_measurements l (stamped now entry)) as Hm.
  apply measurements_all in Hm as [Hm _].
  destruct (MeterLogger.callback l); simpl; [|done].
  rewrite measurements_app, Hm. apply app_nil_r.
Qed.

Lemma ProviderLogger_measurements (o : ProviderLogger.OpenTelemetryLogger)
    (now : time_Time) (entry : LogEntry) :
  IsActive entry = true →
  measurements (ProviderLogger.OnAfterEvent o now entry).2
  = metrics_of (ProviderLogger.recordEnforceMetrics o)
      (ProviderLogger.recordPolicyMetrics o) (stamped now entry).
Proof.
  intros Hactive. rewrite ProviderLogger_OnAfterEvent_active by done.
  pose proof (ProviderLogger_records_measurements o (stamped now entry)) as Hm.
  apply measurements_all in Hm as [Hm _].
  destruct (ProviderLogger.callback o); simpl; [|done].
  rewrite measurements_app, Hm. apply app_nil_r.
Qed.

(** The [domain] attribute: the entry's domain, ["default"] for the empty
    one. *)
Lemma domain_attribute (entry : LogEntry) :
  (if String.eqb (Domain entry) "" then "default" else Domain entry)
  = if decide (Domain entry = "") then "default" else Domain entry.
Proof.
  destruct (String.eqb_spec (Domain entry) ""); case_decide; done.
Qed.

(** C2. For an active entry of type [EventEnforce], [OnAfterEvent] records
    one value, the duration, on the enforce-duration histogram and adds 1 to
    the enforce counter, and makes no other measurement; both carry the
    attributes [allowed] (["true"] or ["false"], from [Allowed]) and
    [domain] (the entry's [Domain], ["default"] when it is empty). Both
    loggers. *)
Theorem OnAfterEvent_enforce_metrics (lA : MeterLogger.OpenTelemetryLogger)
    (lB : ProviderLogger.OpenTelemetryLogger) (now : time_Time)
    (entry : LogEntry) :
  IsActive entry = true →
  entry_EventType entry = EventEnforce →
  let d := Time_Sub now (StartTime entry) in
  let attrs := [("allowed", if Allowed entry then "true" else "false");
                ("domain", if decide (Domain entry = "") then "default"
                           else Domain entry)] in
  measurements (MeterLogger.OnAfterEvent lA now entry).2
  = [InstrRecord (MeterLogger.enforceDuration lA) (MeterLogger.ctx lA)
       (Float64Seconds d) attrs;
     InstrAdd (MeterLogger.enforceTotal lA) (MeterLogger.ctx lA) 1 attrs]
  ∧ measurements (ProviderLogger.OnAfterEvent lB now entry).2
  = [InstrRecord (ProviderLogger.enforceDuration lB) context_Background
       (Float64Seconds d) attrs;
     InstrAdd (ProviderLogger.enforceTotal lB) context_Background 1 attrs].
Proof.
  intros Hactive Hkind d attrs. subst d attrs.
  rewrite MeterLogger_measurements, ProviderLogger_measurements by done.
  unfold metrics_of. simpl. rewrite Hkind, String.eqb_refl.
  unfold MeterLogger.recordEnforceMetrics, ProviderLogger.recordEnforceMetrics.
  simpl. rewrite domain_attribute. done.
Qed.

(** What [recordPolicyMetrics] does in either logger, [c] being the context
    it passes on. *)
Lemma policy_metrics (total duration gauge : Instrument) (c : context_Context)
    (entry : LogEntry) (ms : list Effect) :
  ms = [InstrAdd total c 1
          [("operation", entry_EventType entry);
           ("success", if Error entry is Some _ then "false" else "true")];
        InstrRecord duration c (Float64Seconds (Duration entry))
          [("operation", entry_EventType entry)]]
       ++ (if 0 <? RuleCount entry
           then [InstrRecord gauge c (Int64 (RuleCount entry))
                   [("operation", entry_EventType entry)]]
           else []) →
  take 2 ms
  = [InstrAdd total c 1
       [("operation", entry_EventType entry);
        ("success", if Error entry is None then "true" else "false")];
     InstrRecord duration c (Float64Seconds (Duration entry))
       [("operation", entry_EventType entry)]]
  ∧ Forall (λ x, "success" ∉ (effect_attrs x).*1) (drop 1 ms)
  ∧ (0 < RuleCount entry →
     drop 2 ms = [InstrRecord gauge c (Int64 (RuleCount entry))
                    [("operation", entry_EventType entry)]])
  ∧ (RuleCount entry ≤ 0 → drop 2 ms = []).
Proof.
  intros ->. split; [|split; [|split]].
  - simpl. by destruct (Error entry).
  - simpl. destruct (0 <? RuleCount entry); repeat constructor; simpl;
      intros Hin%list_elem_of_singleton; discriminate.
  - intros Hpos. simpl. by rewrite (proj2 (Z.ltb_lt _ _) Hpos).
  - intros Hnone. simpl. by rewrite (proj2 (Z.ltb_ge _ _) Hnone).
Qed.

(** The measurements of [OnAfterEvent] for an active entry of a policy
    operation. *)
Lemma MeterLogger_policy_measurements (l : MeterLogger.OpenTelemetryLogger)
    (now : time_Time) (entry : LogEntry) :
  IsActive entry = true →
  entry_EventType entry ∈ [EventAddPolicy; EventRemovePolicy; EventLoadPolicy;
                           EventSavePolicy] →
  measurements (MeterLogger.OnAfterEvent l now entry).2
  = MeterLogger.recordPolicyMetrics l (stamped now entry).
Proof.
  intros Hactive Hkind. rewrite MeterLogger_measurements by done.
  apply policy_type_dispatch in Hkind as [Hne Hpol].
  unfold metrics_of. simpl. by rewrite Hne, Hpol.
Qed.

Lemma ProviderLogger_policy_measurements
    (o : ProviderLogger.OpenTelemetryLogger) (now : time_Time)
    (entry : LogEntry) :
  IsActive entry = true →
  entry_EventType entry ∈ [EventAddPolicy; EventRemovePolicy; EventLoadPolicy;
                           EventSavePolicy] →
  measurements (ProviderLogger.OnAfterEvent o now entry).2
  = ProviderLogger.recordPolicyMetrics o (stamped now entry).
Proof.
  intros Hactive Hkind. rewrite ProviderLogger_measurements by done.
  apply policy_type_dispatch in Hkind as [Hne Hpol].
  unfold metrics_of. simpl. by rewrite Hne, Hpol.
Qed.

(** C3. For an active entry whose type is one of the four policy
    operations, the first two measurements of [OnAfterEvent] are: 1 added to
    the policy-operations counter with the attributes [operation] (the event
    type as a string) and [success] (["true"] when [Error] is [nil],
    ["false"] otherwise), and the duration recorded on the
    policy-operations histogram with the attribute [operation] alone; no
    measurement after the counter's carries a [success] attribute. Both
    loggers. *)
Theorem OnAfterEvent_policy_metrics (lA : MeterLogger.OpenTelemetryLogger)
    (lB : ProviderLogger.OpenTelemetryLogger) (now : time_Time)
    (entry : LogEntry) :
  IsActive entry = true →
  entry_EventType entry ∈ [EventAddPolicy; EventRemovePolicy; EventLoadPolicy;
                           EventSavePolicy] →
  let d := Time_Sub now (StartTime entry) in
  let operation : string := entry_EventType entry in
  let success := if Error entry is None then "true" else "false" in
  let msA := measurements (MeterLogger.OnAfterEvent lA now entry).2 in
  let msB := measurements (ProviderLogger.OnAfterEvent lB now entry).2 in
  (take 2 msA
   = [InstrAdd (MeterLogger.policyOpsTotal lA) (MeterLogger.ctx lA) 1
        [("operation", operation); ("success", success)];
      InstrRecord (MeterLogger.policyOpsDuration lA) (MeterLogger.ctx lA)
        (Float64Seconds d) [("operation", operation)]]
   ∧ Forall (λ x, "success" ∉ (effect_attrs x).*1) (drop 1 msA))
  ∧ (take 2 msB
     = [InstrAdd (ProviderLogger.policyOpsTotal lB) context_Background 1
          [("operation", operation); ("success", success)];
        InstrRecord (ProviderLogger.policyOpsDuration lB) context_Background
          (Float64Seconds d) [("operation", operation)]]
     ∧ Forall (λ x, "success" ∉ (effect_attrs x).*1) (drop 1 msB)).
Proof.
  intros Hactive Hkind d operation success msA msB.
  subst d operation success msA msB. split.
  - rewrite MeterLogger_policy_measurements by done.
    edestruct policy_metrics as (Htake & Hdrop & _); [reflexivity|].
    split; [exact Htake|exact Hdrop].
  - rewrite ProviderLogger_policy_measurements by done.
    edestruct policy_metrics as (Htake & Hdrop & _); [reflexivity|].
    split; [exact Htake|exact Hdrop].
Qed.

(** C4. For an active entry of a policy operation, the measurements of
    [OnAfterEvent] are, when [RuleCount] is positive, the counter's and the
    histogram's followed by [RuleCount] recorded on the rules-count gauge
    with the attribute [operation] (the event type as a string); with a zero
    or negative [RuleCount] they are the counter's and the histogram's and
    nothing else, so that nothing is recorded on the gauge. Both loggers. *)
Theorem OnAfterEvent_rules_gauge (lA : MeterLogger.OpenTelemetryLogger)
    (lB : ProviderLogger.OpenTelemetryLogger) (now : time_Time)
    (entry : LogEntry) :
  IsActive entry = true →
  entry_EventType entry ∈ [EventAddPolicy; EventRemovePolicy; EventLoadPolicy;
                           EventSavePolicy] →
  let d := Time_Sub now (StartTime entry) in
  let operation : string := entry_EventType entry in
  let success := if Error entry is None then "true" else "false" in
  let msA := measurements (MeterLogger.OnAfterEvent lA now entry).2 in
  let msB := measurements (ProviderLogger.OnAfterEvent lB now entry).2 in
  let firstA :=
    [InstrAdd (MeterLogger.policyOpsTotal lA) (MeterLogger.ctx lA) 1
       [("operation", operation); ("success", success)];
     InstrRecord (MeterLogger.policyOpsDuration lA) (MeterLogger.ctx lA)
       (Float64Seconds d) [("operation", operation)]] in
  let firstB :=
    [InstrAdd (ProviderLogger.policyOpsTotal lB) context_Background 1
       [("operation", operation); ("success", success)];
     InstrRecord (ProviderLogger.policyOpsDuration lB) context_Background
       (Float64Seconds d) [("operation", operation)]] in
  (0 < RuleCount entry →
     msA = firstA
           ++ [InstrRecord (MeterLogger.policyRulesCount lA)
                 (MeterLogger.ctx lA) (Int64 (RuleCount entry))
                 [("operation", operation)]]
     ∧ msB = firstB
             ++ [InstrRecord (ProviderLogger.policyRulesCount lB)
                   context_Background (Int64 (RuleCount entry))
                   [("operation", operation)]])
  ∧ (RuleCount entry ≤ 0 → msA = firstA ∧ msB = firstB).
Proof.
  intros Hactive Hkind d operation success msA msB firstA firstB.
  subst d operation success msA msB firstA firstB.
  rewrite MeterLogger_policy_measurements by done.
  rewrite ProviderLogger_policy_measurements by done.
  unfold MeterLogger.recordPolicyMetrics, ProviderLogger.recordPolicyMetrics.
  simpl. split.
  - intros Hpos. rewrite (proj2 (Z.ltb_lt _ _) Hpos).
    by destruct (Error entry).
  - intros Hnone. rewrite (proj2 (Z.ltb_ge _ _) Hnone).
    by destruct (Error entry).
Qed.

(** C6. For an active entry of any event type, [OnAfterEvent] with a
    callback calls it once, after all measurements, on the entry it has
    stamped, and returns the callback's error as it is; without a callback
    it returns [nil]. An event type outside the five known ones leads to no
    measurement. Both loggers. *)
Theorem OnAfterEvent_callback (lA : MeterLogger.OpenTelemetryLogger)
    (lB : ProviderLogger.OpenTelemetryLogger) (now : time_Time)
    (entry : LogEntry) :
  IsActive entry = true →
  let rA := MeterLogger.OnAfterEvent lA now entry in
  let rB := ProviderLogger.OnAfterEvent lB now entry in
  calls_back (MeterLogger.callback lA) (stamped now entry) rA
  ∧ calls_back (ProviderLogger.callback lB) (stamped now entry) rB
  ∧ (entry_EventType entry ∉ [EventEnforce; EventAddPolicy; EventRemovePolicy;
                              EventLoadPolicy; EventSavePolicy] →
     measurements rA.2 = [] ∧ measurements rB.2 = []).
Proof.
  intros Hactive rA rB. split; [|split].
  - pose proof (MeterLogger_measurements lA now entry Hactive) as Hms.
    subst rA. revert Hms.
    rewrite MeterLogger_OnAfterEvent_active by done.
    pose proof (MeterLogger_records_measurements lA (stamped now entry)) as Hm.
    apply measurements_all in Hm as [_ Hnone].
    unfold calls_back.
    destruct (MeterLogger.callback lA) as [cb|]; cbv zeta; intros Hms.
    + cbn [snd] in Hms |- *. split; [|reflexivity]. by rewrite Hms.
    + split; [|reflexivity]. exact Hnone.
  - pose proof (ProviderLogger_measurements lB now entry Hactive) as Hms.
    subst rB. revert Hms.
    rewrite ProviderLogger_OnAfterEvent_active by done.
    pose proof (ProviderLogger_records_measurements lB (stamped now entry)) as Hm.
    apply measurements_all in Hm as [_ Hnone].
    unfold calls_back.
    destruct (ProviderLogger.callback lB) as [cb|]; cbv zeta; intros Hms.
    + cbn [snd] in Hms |- *. split; [|reflexivity]. by rewrite Hms.
    + split; [|reflexivity]. exact Hnone.
  - intros Hunknown. subst rA rB.
    rewrite MeterLogger_measurements, ProviderLogger_measurements by done.
    apply unknown_type_dispatch in Hunknown as [Hne Hnopol].
    unfold metrics_of. simpl. by rewrite Hne, Hnopol.
Qed.

End recorder.

(** ** Construction *)

(** A meter accepts a sequence of creation calls when it accepts each of
    them after those before it. *)
Lemma first_error_None (policy : list Instrument → Instrument → error)
    (seen todo : list Instrument) :
  first_error policy seen todo = None
  ↔ ∀ k i, todo !! k = Some i → policy (seen ++ take k todo) i = None.
Proof.
  revert seen. induction todo as [|i0 todo IH]; intros seen; simpl.
  - split; [|done]. intros _ k i Hk. by rewrite lookup_nil in Hk.
  - destruct (policy seen i0) eqn:Hfirst.
    + split; [done|]. intros Hall.
      specialize (Hall 0%nat i0 eq_refl). simpl in Hall.
      rewrite app_nil_r in Hall. congruence.
    + rewrite IH. split.
      * intros Hall [|k] i Hk; simpl in *.
        -- rewrite app_nil_r. congruence.
        -- rewrite cons_middle, (assoc_L (++)). by apply Hall.
      * intros Hall k i Hk. specialize (Hall (S k) i Hk). simpl in Hall.
        by rewrite cons_middle, (assoc_L (++)) in Hall.
Qed.

(** The creations asked for are the first [n] of the five, for some [n]. *)
Ltac prefix_of_five :=
  first [ exists 1%nat; split; [lia|reflexivity]
        | exists 2%nat; split; [lia|reflexivity]
        | exists 3%nat; split; [lia|reflexivity]
        | exists 4%nat; split; [lia|reflexivity]
        | exists 5%nat; split; [lia|reflexivity] ].

(** C8. A constructor creates the five instruments
    [casbin.enforce.duration] (unit [s]), [casbin.enforce.total],
    [casbin.policy.operations.total], [casbin.policy.operations.duration]
    (unit [s]) and [casbin.policy.rules.count], and no other. When the meter
    accepts them all, the logger returned holds them, with an empty
    enabled-event set and no callback. When the meter rejects one,
    [NewOpenTelemetryLoggerWithContext] returns no logger and that error,
    and [NewOpenTelemetryLoggerWithMeterProvider] panics with it. *)
Theorem construction_all_or_nothing (c : context_Context) (m : Meter)
    (provider : MeterProvider) :
  (λ i, (inst_name i, inst_unit i)) <$> casbin_instruments
  = [("casbin.enforce.duration", "s"); ("casbin.enforce.total", "");
     ("casbin.policy.operations.total", "");
     ("casbin.policy.operations.duration", "s");
     ("casbin.policy.rules.count", "")]
  ∧ (let r := MeterLogger.NewOpenTelemetryLoggerWithContext c m in
     built_on m (MeterLogger_instruments <$> r.1.1) r.1.2 r.2
     ∧ ∀ l, r.1.1 = Some l →
         MeterLogger.enabledEventTypes l = ∅
         ∧ MeterLogger.callback l = None ∧ MeterLogger.ctx l = c)
  ∧ (let r := ProviderLogger.NewOpenTelemetryLoggerWithMeterProvider provider in
     built_on (provider ProviderLogger.meterName)
       (ProviderLogger_instruments <$> returned r.1) (panicked r.1) r.2
     ∧ ∀ o, r.1 = Returns o →
         ProviderLogger.enabledEventTypes o = ∅
         ∧ ProviderLogger.callback o = None ∧ ProviderLogger.meter o = r.2).
Proof.
  split; [reflexivity|]. split.
  - unfold MeterLogger.NewOpenTelemetryLoggerWithContext, built_on, returning,
      checked, mbind, Reg_bind, mret, Reg_ret, Float64Histogram, Int64Counter,
      Int64Gauge, meter_create.
    simpl.
    repeat (match goal with
            | |- context [rejects m ?seen ?i] =>
                destruct (rejects m seen i) eqn:?; simpl
            end).
    all: split; [|intros l Heq; by simplify_eq].
    all: repeat split; rewrite <- ?(assoc_L (++)); try done.
    all: prefix_of_five.
  - set (m0 := provider ProviderLogger.meterName).
    unfold ProviderLogger.NewOpenTelemetryLoggerWithMeterProvider, built_on,
      panicking, checked, mbind, Reg_bind, mret, Reg_ret,
      ProviderLogger.held_meter, Float64Histogram, Int64Counter, Int64Gauge,
      meter_create.
    fold m0. simpl.
    repeat (match goal with
            | |- context [rejects m0 ?seen ?i] =>
                destruct (rejects m0 seen i) eqn:?; simpl
            end).
    all: split; [|intros l Heq; by simplify_eq].
    all: repeat split; rewrite <- ?(assoc_L (++)); try done.
    all: prefix_of_five.
Qed.

(** ** Setting the enabled event types *)

(** The map that the loop of [SetEventTypes] builds on top of [m0]. *)
Lemma SetEventTypes_loop (eventTypes : list EventType)
    (m0 : gmap EventType bool) (k : EventType) :
  foldl (λ m eventType, <[eventType := true]> m) m0 eventTypes !! k
  = if decide (k ∈ eventTypes) then Some true else m0 !! k.
Proof.
  revert m0. induction eventTypes as [|k0 ks IH]; intros m0; cbn [foldl].
  - by rewrite decide_False by apply not_elem_of_nil.
  - rewrite IH. destruct (decide (k = k0)) as [->|Hne].
    + rewrite lookup_insert_eq.
      rewrite (decide_True (P := k0 ∈ k0 :: ks)) by (apply elem_of_cons; by left).
      by case_decide.
    + rewrite lookup_insert_ne by done.
      case_decide as Hin.
      * by rewrite decide_True by (apply elem_of_cons; by right).
      * rewrite decide_False; [done|].
        intros [?|?]%elem_of_cons; contradiction.
Qed.

Lemma SetEventTypes_map (eventTypes : list EventType) :
  foldl (λ m eventType, <[eventType := true]> m) ∅ eventTypes
  = gset_to_gmap true (list_to_set eventTypes).
Proof.
  apply map_eq. intros k. rewrite SetEventTypes_loop. symmetry.
  case_decide as Hin.
  - apply lookup_gset_to_gmap_Some. split; [|done].
    by apply elem_of_list_to_set.
  - rewrite lookup_empty. apply lookup_gset_to_gmap_None.
    by rewrite elem_of_list_to_set.
Qed.

Lemma enabled_gset_to_gmap (X : gset EventType) (k : EventType) :
  enabled (gset_to_gmap true X) k ↔ k ∈ X.
Proof.
  unfold enabled. rewrite lookup_gset_to_gmap_Some. intuition.
Qed.

(** C9. [SetEventTypes] returns [nil] and replaces the enabled-event set,
    whatever it was, by the set of the event types in the sequence it is
    given: an event type is a member afterwards exactly when it occurs in
    the sequence. Two sequences with the same set of event types lead to
    the same logger, hence to the same behaviour of [OnBeforeEvent]. Both
    loggers. *)
Theorem SetEventTypes_replaces (lA : MeterLogger.OpenTelemetryLogger)
    (lB : ProviderLogger.OpenTelemetryLogger) (ks1 ks2 : list EventType) :
  list_to_set ks1 =@{gset EventType} list_to_set ks2 →
  ((MeterLogger.SetEventTypes lA ks1).2 = None
   ∧ MeterLogger.enabledEventTypes (MeterLogger.SetEventTypes lA ks1).1
     = gset_to_gmap true (list_to_set ks1)
   ∧ (∀ k, enabled (MeterLogger.enabledEventTypes
                      (MeterLogger.SetEventTypes lA ks1).1) k ↔ k ∈ ks1)
   ∧ MeterLogger.SetEventTypes lA ks1 = MeterLogger.SetEventTypes lA ks2
   ∧ ∀ now entry,
       MeterLogger.OnBeforeEvent (MeterLogger.SetEventTypes lA ks1).1 now entry
       = MeterLogger.OnBeforeEvent (MeterLogger.SetEventTypes lA ks2).1 now entry)
  ∧ ((ProviderLogger.SetEventTypes lB ks1).2 = None
     ∧ ProviderLogger.enabledEventTypes (ProviderLogger.SetEventTypes lB ks1).1
       = gset_to_gmap true (list_to_set ks1)
     ∧ (∀ k, enabled (ProviderLogger.enabledEventTypes
                        (ProviderLogger.SetEventTypes lB ks1).1) k ↔ k ∈ ks1)
     ∧ ProviderLogger.SetEventTypes lB ks1 = ProviderLogger.SetEventTypes lB ks2
     ∧ ∀ now entry,
         ProviderLogger.OnBeforeEvent (ProviderLogger.SetEventTypes lB ks1).1
           now entry
         = ProviderLogger.OnBeforeEvent (ProviderLogger.SetEventTypes lB ks2).1
             now entry).
Proof.
  intros Hsame.
  assert (MeterLogger.SetEventTypes lA ks1 = MeterLogger.SetEventTypes lA ks2)
    as HA.
  { unfold MeterLogger.SetEventTypes. by rewrite !SetEventTypes_map, Hsame. }
  assert (ProviderLogger.SetEventTypes lB ks1
          = ProviderLogger.SetEventTypes lB ks2) as HB.
  { unfold ProviderLogger.SetEventTypes. by rewrite !SetEventTypes_map, Hsame. }
  split.
  - split; [reflexivity|]. split; [apply SetEventTypes_map|].
    split; [|split; [exact HA|by rewrite HA]].
    intros k. simpl. rewrite SetEventTypes_map, enabled_gset_to_gmap.
    apply elem_of_list_to_set.
  - split; [reflexivity|]. split; [apply SetEventTypes_map|].
    split; [|split; [exact HB|by rewrite HB]].
    intros k. simpl. rewrite SetEventTypes_map, enabled_gset_to_gmap.
    apply elem_of_list_to_set.
Qed.

(** ** The two loggers side by side *)

(** C10. Two loggers, one of each kind, with the same enabled-event set,
    callback and instruments behave alike on every entry: [OnBeforeEvent]
    returns the same entry and error; [OnAfterEvent] returns the same entry
    and error and has the same trace once the context arguments are left
    out. The logger built from a meter passes its own context with every
    measurement, the one built from a provider the background context. *)
Theorem loggers_agree `{EventTypes} (enabledTypes : gmap EventType bool)
    (cb : option Callback) (i1 i2 i3 i4 i5 : Instrument) (c : context_Context)
    (m : Meter) (now : time_Time) (entry : LogEntry) :
  let lA := {| MeterLogger.enabledEventTypes := enabledTypes;
               MeterLogger.callback := cb;
               MeterLogger.enforceDuration := i1;
               MeterLogger.enforceTotal := i2;
               MeterLogger.policyOpsTotal := i3;
               MeterLogger.policyOpsDuration := i4;
               MeterLogger.policyRulesCount := i5;
               MeterLogger.ctx := c |} in
  let lB := {| ProviderLogger.enabledEventTypes := enabledTypes;
               ProviderLogger.callback := cb;
               ProviderLogger.meter := m;
               ProviderLogger.enforceDuration := i1;
               ProviderLogger.enforceTotal := i2;
               ProviderLogger.policyOpsTotal := i3;
               ProviderLogger.policyOpsDuration := i4;
               ProviderLogger.policyRulesCount := i5 |} in
  let rA := MeterLogger.OnAfterEvent lA now entry in
  let rB := ProviderLogger.OnAfterEvent lB now entry in
  MeterLogger.OnBeforeEvent lA now entry
  = ProviderLogger.OnBeforeEvent lB now entry
  ∧ rA.1 = rB.1
  ∧ without_ctx <$> rA.2 = without_ctx <$> rB.2
  ∧ Forall (λ x, ∀ c', effect_ctx x = Some c' → c' = c) rA.2
  ∧ Forall (λ x, ∀ c', effect_ctx x = Some c' → c' = context_Background) rB.2.
Proof.
  intros lA lB rA rB. split; [reflexivity|].
  subst rA rB. unfold MeterLogger.OnAfterEvent, ProviderLogger.OnAfterEvent.
  destruct (IsActive entry); simpl; [|by repeat split].
  fold (stamped now entry).
  unfold MeterLogger.recordPolicyMetrics, ProviderLogger.recordPolicyMetrics,
    MeterLogger.recordEnforceMetrics, ProviderLogger.recordEnforceMetrics.
  simpl.
  destruct (String.eqb (entry_EventType entry) EventEnforce);
    [|destruct (String.eqb (entry_EventType entry) EventAddPolicy
               || String.eqb (entry_EventType entry) EventRemovePolicy
               || String.eqb (entry_EventType entry) EventLoadPolicy
               || String.eqb (entry_EventType entry) EventSavePolicy);
      [destruct (0 <? RuleCount entry)|]].
  all: destruct cb as [f|]; simpl; [destruct (f (stamped now entry))|].
  all: simpl; repeat split; repeat constructor; simpl; congruence.
Qed.

(** ** The theorems at work on the scenarios of the tests *)

(** An enforce entry for alice on [domain1], allowed, 100 ms after its
    start, as in [TestOnAfterEvent_Enforce]. *)
Lemma OnAfterEvent_enforce_metrics_witness :
  let entry := sample_entry true "enforce" 1000000000 "domain1" true 0 None in
  let attrs := [("allowed", "true"); ("domain", "domain1")] in
  measurements (MeterLogger.OnAfterEvent (sample_MeterLogger ∅ None)
                  1100000000 entry).2
  = [InstrRecord (sample_instrument Float64HistogramKind "d1")
       (context_Derived 7) (Float64Seconds 100000000) attrs;
     InstrAdd (sample_instrument Int64CounterKind "c1")
       (context_Derived 7) 1 attrs]
  ∧ measurements (ProviderLogger.OnAfterEvent (sample_ProviderLogger ∅ None)
                    1100000000 entry).2
  = [InstrRecord (sample_instrument Float64HistogramKind "d1")
       context_Background (Float64Seconds 100000000) attrs;
     InstrAdd (sample_instrument Int64CounterKind "c1")
       context_Background 1 attrs].
Proof.
  exact (OnAfterEvent_enforce_metrics (sample_MeterLogger ∅ None)
           (sample_ProviderLogger ∅ None) 1100000000
           (sample_entry true "enforce" 1000000000 "domain1" true 0 None)
           eq_refl eq_refl).
Defined.

(** A failed removal of two rules: counted with [success] ["false"]. *)
Lemma OnAfterEvent_policy_metrics_witness :
  let entry := sample_entry true "removePolicy" 1000 "" false 2
                 (Some (errors_New "test error")) in
  take 2 (measurements (MeterLogger.OnAfterEvent (sample_MeterLogger ∅ None)
                          1050 entry).2)
  = [InstrAdd (sample_instrument Int64CounterKind "c2") (context_Derived 7) 1
       [("operation", "removePolicy"); ("success", "false")];
     InstrRecord (sample_instrument Float64HistogramKind "d2")
       (context_Derived 7) (Float64Seconds 50)
       [("operation", "removePolicy")]].
Proof.
  exact (proj1 (proj1 (OnAfterEvent_policy_metrics (sample_MeterLogger ∅ None)
           (sample_ProviderLogger ∅ None) 1050
           (sample_entry true "removePolicy" 1000 "" false 2
              (Some (errors_New "test error")))
           eq_refl (list_elem_of_further _ _ _ (list_elem_of_here _ _))))).
Defined.

(** The same removal: its two rules go to the gauge, after the counter and
    the histogram. *)
Lemma OnAfterEvent_rules_gauge_witness :
  let entry := sample_entry true "removePolicy" 1000 "" false 2
                 (Some (errors_New "test error")) in
  measurements (ProviderLogger.OnAfterEvent
                  (sample_ProviderLogger ∅ None) 1050 entry).2
  = [InstrAdd (sample_instrument Int64CounterKind "c2") context_Background 1
       [("operation", "removePolicy"); ("success", "false")];
     InstrRecord (sample_instrument Float64HistogramKind "d2")
       context_Background (Float64Seconds 50) [("operation", "removePolicy")];
     InstrRecord (sample_instrument Int64GaugeKind "g") context_Background
       (Int64 2) [("operation", "removePolicy")]].
Proof.
  refine (proj2 (proj1 (OnAfterEvent_rules_gauge (sample_MeterLogger ∅ None)
            (sample_ProviderLogger ∅ None) 1050
            (sample_entry true "removePolicy" 1000 "" false 2
               (Some (errors_New "test error")))
            eq_refl (list_elem_of_further _ _ _ (list_elem_of_here _ _))) _)).
  reflexivity.
Defined.

(** An entry that the gate filtered out, handed to [OnAfterEvent] three
    times. *)
Lemma OnAfterEvent_inactive_witness :
  let entry := sample_entry false "addPolicy" 0 "" false 5 None in
  repeatedly (MeterLogger.OnAfterEvent
                (sample_MeterLogger {[ "enforce" := true ]} None))
    [10; 20; 30] entry
  = (entry, [None; None; None], [])
  ∧ repeatedly (ProviderLogger.OnAfterEvent
                  (sample_ProviderLogger {[ "enforce" := true ]} None))
      [10; 20; 30] entry
  = (entry, [None; None; None], []).
Proof.
  exact (OnAfterEvent_inactive (sample_MeterLogger {[ "enforce" := true ]} None)
           (sample_ProviderLogger {[ "enforce" := true ]} None) [10; 20; 30]
           (sample_entry false "addPolicy" 0 "" false 5 None) eq_refl).
Defined.

(** The failing callback of [TestSetLogCallback_WithError]: its error comes
    back, after the two measurements. *)
Lemma OnAfterEvent_callback_witness :
  let entry := sample_entry true "enforce" 1000 "" true 0 None in
  let r := MeterLogger.OnAfterEvent
             (sample_MeterLogger ∅ (Some failing_callback)) 1000 entry in
  r.2 = measurements r.2 ++ [CallbackCall (stamped 1000 entry)]
  ∧ r.1.2 = Some (errors_New "callback error").
Proof.
  exact (proj1 (OnAfterEvent_callback
           (sample_MeterLogger ∅ (Some failing_callback))
           (sample_ProviderLogger ∅ None) 1000
           (sample_entry true "enforce" 1000 "" true 0 None) eq_refl)).
Defined.

(** A start 50 ms in the past, as in [TestOnAfterEvent_PolicyOperation]. *)
Lemma OnAfterEvent_duration_witness :
  let entry := sample_entry true "addPolicy" 950000000 "" false 5 None in
  let r := MeterLogger.OnAfterEvent (sample_MeterLogger ∅ None)
             1000000000 entry in
  EndTime r.1.1 = 1000000000 ∧ Duration r.1.1 = 50000000.
Proof.
  pose proof (OnAfterEvent_duration (sample_MeterLogger ∅ None)
                (sample_ProviderLogger ∅ None) 1000000000
                (sample_entry true "addPolicy" 950000000 "" false 5 None)
                eq_refl) as (Hreturned & _ & _ & Hend & Hduration & _).
  cbv zeta. rewrite Hreturned. split; [exact Hend|exact Hduration].
Defined.

(** C7 as stated fails. With a [StartTime] one microsecond after the
    current time, the entry is active and [OnAfterEvent] leaves a negative
    [Duration] in it, in both loggers. And with a [StartTime] more than
    [maxDuration] before the current time (as the zero [time.Time] of an
    entry that never went through the gate is), the [Duration] is
    [maxDuration], not the difference of the two times. *)
Lemma OnAfterEvent_duration_negative :
  IsActive (sample_entry true "enforce" 2000 "" true 0 None) = true
  ∧ Duration (MeterLogger.OnAfterEvent (sample_MeterLogger ∅ None) 1000
                (sample_entry true "enforce" 2000 "" true 0 None)).1.1 = -1000
  ∧ Duration (ProviderLogger.OnAfterEvent (sample_ProviderLogger ∅ None) 1000
                (sample_entry true "enforce" 2000 "" true 0 None)).1.1 = -1000
  ∧ ¬ (0 ≤ Duration (MeterLogger.OnAfterEvent (sample_MeterLogger ∅ None) 1000
                       (sample_entry true "enforce" 2000 "" true 0 None)).1.1)
  ∧ Duration (MeterLogger.OnAfterEvent (sample_MeterLogger ∅ None)
                10000000000000000000
                (sample_entry true "enforce" 0 "" true 0 None)).1.1
    = 9223372036854775807
  ∧ 9223372036854775807 ≠ 10000000000000000000 - 0.
Proof.
  repeat split.
  - vm_compute. intros Hle. exact (Hle eq_refl).
  - discriminate.
Qed.

(** [[enforce; addPolicy; enforce]] and [[addPolicy; enforce]] enable the
    same event types. *)
Lemma SetEventTypes_replaces_witness :
  MeterLogger.SetEventTypes (sample_MeterLogger {[ "loadPolicy" := true ]} None)
    ["enforce"; "addPolicy"; "enforce"]
  = MeterLogger.SetEventTypes (sample_MeterLogger {[ "loadPolicy" := true ]} None)
      ["addPolicy"; "enforce"].
Proof.
  refine (proj1 (proj2 (proj2 (proj2 (proj1 (SetEventTypes_replaces
            (sample_MeterLogger {[ "loadPolicy" := true ]} None)
            (sample_ProviderLogger ∅ None)
            ["enforce"; "addPolicy"; "enforce"] ["addPolicy"; "enforce"] _)))))).
  vm_compute. reflexivity.
Defined.

(** The filtered policy entry of [TestFullWorkflow]: inactive after the
    gate, and nothing happens afterwards. *)
Example filtered_workflow :
  let l := (MeterLogger.SetEventTypes (sample_MeterLogger ∅ None) ["enforce"]).1 in
  let entry := sample_entry false "addPolicy" 0 "" false 5 None in
  let before := MeterLogger.OnBeforeEvent l 1000 entry in
  before = (entry, None)
  ∧ MeterLogger.OnAfterEvent l 1005 before.1 = (entry, None, []).
Proof. split; reflexivity. Qed.

(** A meter that accepts everything: construction succeeds with the five
    instruments. *)
Example construction_succeeds :
  let m := {| calls := []; rejects := λ _ _, None |} in
  let r := MeterLogger.NewOpenTelemetryLogger m in
  MeterLogger_instruments <$> r.1.1 = Some casbin_instruments
  ∧ r.1.2 = None ∧ calls r.2 = casbin_instruments.
Proof. repeat split. Qed.

(** A meter that refuses a second counter: construction stops at the third
    instrument. *)
Example construction_fails :
  let is_counter i :=
    match inst_kind i with Int64CounterKind => true | _ => false end in
  let refuse seen i :=
    if is_counter i && existsb is_counter seen
    then Some (errors_New "one counter only") else None in
  let provider : MeterProvider := λ _, {| calls := []; rejects := refuse |} in
  let r := ProviderLogger.NewOpenTelemetryLoggerWithMeterProvider provider in
  r.1 = Panics (errors_New "one counter only")
  ∧ calls r.2 = take 3 casbin_instruments.
Proof. vm_compute. split; reflexivity. Qed.

(** * Further properties of the loggers *)

(** ** One logger seen as the other *)

Lemma Logger_OnBeforeEvent_as (L : Logger) (now : time_Time) (entry : LogEntry) :
  Logger_OnBeforeEvent L now entry
  = MeterLogger.OnBeforeEvent (as_MeterLogger L) now entry.
Proof. by destruct L. Qed.

Lemma Logger_OnAfterEvent_as `{EventTypes} (L : Logger) (now : time_Time)
    (entry : LogEntry) :
  Logger_OnAfterEvent L now entry
  = MeterLogger.OnAfterEvent (as_MeterLogger L) now entry.
Proof. by destruct L. Qed.

Lemma as_MeterLogger_enabledEventTypes (L : Logger) :
  MeterLogger.enabledEventTypes (as_MeterLogger L) = Logger_enabledEventTypes L.
Proof. by destruct L. Qed.

Lemma as_MeterLogger_callback (L : Logger) :
  MeterLogger.callback (as_MeterLogger L) = Logger_callback L.
Proof. by destruct L. Qed.

Lemma as_MeterLogger_ctx (L : Logger) :
  MeterLogger.ctx (as_MeterLogger L) = Logger_ctx L.
Proof. by destruct L. Qed.

Lemma as_MeterLogger_instruments (L : Logger) :
  MeterLogger_instruments (as_MeterLogger L) = Logger_instruments L.
Proof. by destruct L. Qed.

Lemma as_MeterLogger_SetEventTypes (L : Logger) (eventTypes : list EventType) :
  as_MeterLogger (Logger_SetEventTypes L eventTypes).1
  = (MeterLogger.SetEventTypes (as_MeterLogger L) eventTypes).1.
Proof. by destruct L. Qed.

Lemma as_MeterLogger_SetLogCallback (L : Logger) (cb : option Callback) :
  as_MeterLogger (Logger_SetLogCallback L cb).1
  = (MeterLogger.SetLogCallback (as_MeterLogger L) cb).1.
Proof. by destruct L. Qed.

(** ** Configuration and the gate *)

(** The map that [SetEventTypes] builds is empty for the empty sequence
    only. *)
Lemma SetEventTypes_map_empty (eventTypes : list EventType) :
  foldl (λ m eventType, <[eventType := true]> m) ∅ eventTypes
    =@{gmap EventType bool} ∅
  ↔ eventTypes = [].
Proof.
  split; [|by intros ->].
  destruct eventTypes as [|k ks]; [done|]. intros Hempty.
  pose proof (SetEventTypes_loop (k :: ks) ∅ k) as Hk.
  rewrite Hempty, lookup_empty in Hk.
  rewrite decide_True in Hk by (apply elem_of_cons; by left). discriminate.
Qed.

(** Whether [OnBeforeEvent] marks the entry active, read off the map. *)
Lemma MeterLogger_gate_active (l : MeterLogger.OpenTelemetryLogger)
    (now : time_Time) (entry : LogEntry) :
  IsActive (MeterLogger.OnBeforeEvent l now entry).1 = true
  ↔ MeterLogger.enabledEventTypes l = ∅
    ∨ enabled (MeterLogger.enabledEventTypes l) (entry_EventType entry).
Proof.
  unfold MeterLogger.OnBeforeEvent.
  destruct (bool_decide (0 < size (MeterLogger.enabledEventTypes l))%nat
            && negb (default false (MeterLogger.enabledEventTypes l
                                      !! entry_EventType entry))) eqn:Hgate.
  - apply gate_condition in Hgate as [Hne Hout]. simpl.
    split; [discriminate|]. intros [Hempty|Hin]; contradiction.
  - simpl. split; [|done]. intros _.
    destruct (decide (MeterLogger.enabledEventTypes l = ∅)) as [|Hne];
      [by left|right].
    destruct (decide (MeterLogger.enabledEventTypes l
                        !! entry_EventType entry = Some true)) as [|Hout];
      [done|].
    assert (bool_decide (0 < size (MeterLogger.enabledEventTypes l))%nat
            && negb (default false (MeterLogger.enabledEventTypes l
                                      !! entry_EventType entry)) = true)
      as Hyes by by apply gate_condition.
    congruence.
Qed.

(** Whether [OnBeforeEvent] marks the entry active after [SetEventTypes]. *)
Lemma SetEventTypes_then_gate_aux (L : Logger) (eventTypes : list EventType)
    (now : time_Time) (entry : LogEntry) :
  IsActive (Logger_OnBeforeEvent (Logger_SetEventTypes L eventTypes).1
              now entry).1 = true
  ↔ eventTypes = [] ∨ entry_EventType entry ∈ eventTypes.
Proof.
  rewrite Logger_OnBeforeEvent_as, as_MeterLogger_SetEventTypes.
  rewrite MeterLogger_gate_active. simpl.
  rewrite SetEventTypes_map_empty. unfold enabled.
  rewrite SetEventTypes_loop, lookup_empty.
  case_decide; intuition congruence.
Qed.

(** X1. After [SetEventTypes], [OnBeforeEvent] marks an entry active
    exactly when the sequence given was empty or holds the entry's event
    type: the empty sequence switches the filter off. An active entry has
    [StartTime] at the current time, an inactive one keeps its own. *)
Theorem SetEventTypes_then_gate (L : Logger) (eventTypes : list EventType)
    (now : time_Time) (entry : LogEntry) :
  let started := (Logger_OnBeforeEvent (Logger_SetEventTypes L eventTypes).1
                    now entry).1 in
  (IsActive started = true
   ↔ eventTypes = [] ∨ entry_EventType entry ∈ eventTypes)
  ∧ StartTime started = (if IsActive started then now else StartTime entry).
Proof.
  intros started. split; [apply SetEventTypes_then_gate_aux|].
  subst started. rewrite Logger_OnBeforeEvent_as.
  unfold MeterLogger.OnBeforeEvent. by case_match.
Qed.

(** Any number of calls of [OnAfterEvent] on an inactive entry. *)
Lemma repeatedly_inactive `{EventTypes} (L : Logger) (nows : list time_Time)
    (entry : LogEntry) :
  IsActive entry = false →
  repeatedly (Logger_OnAfterEvent L) nows entry
  = (entry, replicate (length nows) None, []).
Proof.
  intros Hinactive. induction nows as [|now nows IH]; [reflexivity|].
  simpl. rewrite Logger_OnAfterEvent_as.
  unfold MeterLogger.OnAfterEvent at 1. rewrite Hinactive. simpl.
  by rewrite IH.
Qed.

(** X2. An entry whose event type is not in the non-empty sequence given to
    [SetEventTypes] goes through [OnBeforeEvent] and any number of
    [OnAfterEvent]s without a measurement, a callback call or an error, and
    comes out with [IsActive] false, whatever it was, and nothing else
    changed. *)
Theorem filtered_lifecycle `{EventTypes} (L : Logger)
    (eventTypes : list EventType) (now : time_Time) (nows : list time_Time)
    (entry : LogEntry) :
  eventTypes ≠ [] →
  entry_EventType entry ∉ eventTypes →
  let L' := (Logger_SetEventTypes L eventTypes).1 in
  Logger_OnBeforeEvent L' now entry = (set_IsActive false entry, None)
  ∧ repeatedly (Logger_OnAfterEvent L') nows (Logger_OnBeforeEvent L' now entry).1
    = (set_IsActive false entry, replicate (length nows) None, []).
Proof.
  intros Hsome Hout L'.
  assert (Logger_OnBeforeEvent L' now entry = (set_IsActive false entry, None))
    as Hbefore.
  { pose proof (SetEventTypes_then_gate_aux L eventTypes now entry) as Hgate.
    subst L'. revert Hgate.
    rewrite Logger_OnBeforeEvent_as. unfold MeterLogger.OnBeforeEvent.
    case_match; [done|]. simpl. intros Hgate.
    destruct (proj1 Hgate eq_refl); contradiction. }
  split; [exact Hbefore|].
  rewrite Hbefore. by apply repeatedly_inactive.
Qed.

(** X3. After [SetEventTypes] the enabled-event map has one key per
    distinct event type of the sequence: [len] of it is the length of the
    sequence without its repetitions, so the length of the sequence itself
    when nothing is repeated. *)
Theorem SetEventTypes_size (L : Logger) (eventTypes : list EventType) :
  size (Logger_enabledEventTypes (Logger_SetEventTypes L eventTypes).1)
  = length (remove_dups eventTypes)
  ∧ (NoDup eventTypes →
     size (Logger_enabledEventTypes (Logger_SetEventTypes L eventTypes).1)
     = length eventTypes).
Proof.
  assert (size (Logger_enabledEventTypes (Logger_SetEventTypes L eventTypes).1)
          = size (list_to_set eventTypes : gset EventType)) as Hsize.
  { rewrite <- as_MeterLogger_enabledEventTypes, as_MeterLogger_SetEventTypes.
    simpl. rewrite SetEventTypes_map.
    by rewrite <- size_dom, dom_gset_to_gmap. }
  rewrite Hsize. split.
  - rewrite <- (size_list_to_set (C := gset EventType) (remove_dups eventTypes))
      by apply NoDup_remove_dups.
    f_equal. apply set_eq. intros k.
    by rewrite !elem_of_list_to_set, elem_of_remove_dups.
  - intros Hnodup. by apply size_list_to_set.
Qed.

(** X4. A second [OnBeforeEvent] on the same entry starts it afresh: the
    result is that of the second call alone. In particular a [StartTime]
    and an [IsActive] that the entry brought along do not survive a call
    that lets it through. *)
Theorem OnBeforeEvent_restarts (L : Logger) (now1 now2 t : time_Time)
    (b : bool) (entry : LogEntry) :
  Logger_OnBeforeEvent L now2 (Logger_OnBeforeEvent L now1 entry).1
  = Logger_OnBeforeEvent L now2 entry
  ∧ (IsActive (Logger_OnBeforeEvent L now2 entry).1 = true →
     Logger_OnBeforeEvent L now2 (set_StartTime t (set_IsActive b entry))
     = Logger_OnBeforeEvent L now2 entry).
Proof.
  rewrite !Logger_OnBeforeEvent_as. unfold MeterLogger.OnBeforeEvent.
  destruct (bool_decide
              (0 < size (MeterLogger.enabledEventTypes (as_MeterLogger L)))%nat
            && negb (default false
                       (MeterLogger.enabledEventTypes (as_MeterLogger L)
                        !! entry_EventType entry))) eqn:Hgate;
    simpl; rewrite Hgate; split; try done.
Qed.

Section further.
Context `{EventTypes}.

(** The result and the trace of [OnAfterEvent] in one piece. *)
Lemma Logger_OnAfterEvent_result (L : Logger) (now : time_Time)
    (entry : LogEntry) :
  (Logger_OnAfterEvent L now entry).1
  = (if IsActive entry
     then match Logger_callback L with
          | Some cb => cb (stamped now entry)
          | None => (stamped now entry, None)
          end
     else (entry, None)).
Proof.
  rewrite Logger_OnAfterEvent_as, <- as_MeterLogger_callback.
  destruct (IsActive entry) eqn:Hactive.
  - rewrite MeterLogger_OnAfterEvent_active by done. simpl.
    destruct (MeterLogger.callback (as_MeterLogger L)) as [cb|]; [|done].
    by destruct (cb (stamped now entry)).
  - unfold MeterLogger.OnAfterEvent. by rewrite Hactive.
Qed.

Lemma Logger_OnAfterEvent_trace (L : Logger) (now : time_Time)
    (entry : LogEntry) :
  (Logger_OnAfterEvent L now entry).2
  = (if IsActive entry
     then metrics_of (MeterLogger.recordEnforceMetrics (as_MeterLogger L))
            (MeterLogger.recordPolicyMetrics (as_MeterLogger L))
            (stamped now entry)
          ++ (if Logger_callback L is Some _
              then [CallbackCall (stamped now entry)] else [])
     else []).
Proof.
  rewrite Logger_OnAfterEvent_as, <- as_MeterLogger_callback.
  destruct (IsActive entry) eqn:Hactive.
  - rewrite MeterLogger_OnAfterEvent_active by done. simpl.
    destruct (MeterLogger.callback (as_MeterLogger L)); [done|].
    by rewrite app_nil_r.
  - unfold MeterLogger.OnAfterEvent. by rewrite Hactive.
Qed.


Lemma Logger_measurements (L : Logger) (now : time_Time) (entry : LogEntry) :
  measurements (Logger_OnAfterEvent L now entry).2
  = (if IsActive entry
     then metrics_of (MeterLogger.recordEnforceMetrics (as_MeterLogger L))
            (MeterLogger.recordPolicyMetrics (as_MeterLogger L))
            (stamped now entry)
     else []).
Proof.
  rewrite Logger_OnAfterEvent_trace.
  destruct (IsActive entry); [|done].
  pose proof (MeterLogger_records_measurements (as_MeterLogger L)
                (stamped now entry)) as Hm.
  apply measurements_all in Hm as [Hm _].
  rewrite measurements_app, Hm.
  destruct (Logger_callback L); by rewrite ?app_nil_r.
Qed.

(** X5. Each hook looks at its own part of the configuration only:
    [SetEventTypes] changes nothing of what [OnAfterEvent] does, also for an
    entry that went through the gate before the change, and
    [SetLogCallback] changes nothing of what [OnBeforeEvent] does. The two
    settings can be made in either order. *)
Theorem hooks_own_configuration (L : Logger) (eventTypes : list EventType)
    (cb : option Callback) (now : time_Time) (entry : LogEntry) :
  Logger_OnAfterEvent (Logger_SetEventTypes L eventTypes).1 now entry
  = Logger_OnAfterEvent L now entry
  ∧ Logger_OnBeforeEvent (Logger_SetLogCallback L cb).1 now entry
    = Logger_OnBeforeEvent L now entry
  ∧ (Logger_SetLogCallback (Logger_SetEventTypes L eventTypes).1 cb).1
    = (Logger_SetEventTypes (Logger_SetLogCallback L cb).1 eventTypes).1.
Proof.
  destruct L as [l|o]; repeat split.
Qed.

(** ** The lifecycle of an entry *)

(** Case analysis on the [switch] of [OnAfterEvent] and on what the two
    recording methods test. *)
Ltac metrics_cases :=
  unfold metrics_of, MeterLogger.recordEnforceMetrics,
    MeterLogger.recordPolicyMetrics;
  repeat case_match; simpl.

(** The durations that reach a histogram are the entry's [Duration]. *)
Lemma metrics_seconds (l : MeterLogger.OpenTelemetryLogger) (e : LogEntry) :
  Forall (λ x, ∀ d, effect_seconds x = Some d → d = Duration e)
    (metrics_of (MeterLogger.recordEnforceMetrics l)
       (MeterLogger.recordPolicyMetrics l) e).
Proof.
  metrics_cases; repeat constructor; simpl; congruence.
Qed.

(** X6. An entry that [OnBeforeEvent] let through at [now1] and that
    reaches [OnAfterEvent] at a later clock reading [now2], with [IsActive]
    and [StartTime] as the gate left them (the host may have set other
    fields meanwhile), gets a [Duration] that is not negative, the elapsed
    time [now2 - now1] when that fits a [time.Duration]; every duration
    recorded on a histogram is that one. *)
Theorem lifecycle_duration (L : Logger) (now1 now2 : time_Time)
    (entry entry2 : LogEntry) :
  now1 ≤ now2 →
  IsActive (Logger_OnBeforeEvent L now1 entry).1 = true →
  IsActive entry2 = IsActive (Logger_OnBeforeEvent L now1 entry).1 →
  StartTime entry2 = StartTime (Logger_OnBeforeEvent L now1 entry).1 →
  let r := Logger_OnAfterEvent L now2 entry2 in
  r.1.1 = after_callback (Logger_callback L) (stamped now2 entry2)
  ∧ StartTime (stamped now2 entry2) = now1
  ∧ EndTime (stamped now2 entry2) = now2
  ∧ Duration (stamped now2 entry2) = Time_Sub now2 now1
  ∧ 0 ≤ Time_Sub now2 now1
  ∧ (now2 - now1 ≤ maxDuration → Time_Sub now2 now1 = now2 - now1)
  ∧ Forall (λ x, ∀ d, effect_seconds x = Some d → d = Time_Sub now2 now1) r.2.
Proof.
  intros Hclock Hpassed Hactive Hstart r.
  assert (StartTime entry2 = now1) as Hnow1.
  { rewrite Hstart. revert Hpassed. rewrite Logger_OnBeforeEvent_as.
    unfold MeterLogger.OnBeforeEvent. by case_match. }
  rewrite Hpassed in Hactive.
  assert (Duration (stamped now2 entry2) = Time_Sub now2 now1) as Hduration
    by (simpl; by rewrite Hnow1).
  split; [|split; [|split; [|split; [|split; [|split]]]]].
  - subst r. rewrite Logger_OnAfterEvent_result, Hactive.
    by destruct (Logger_callback L).
  - exact Hnow1.
  - reflexivity.
  - exact Hduration.
  - exact (proj1 (Time_Sub_sign now2 now1) Hclock).
  - intros Hfits. apply Time_Sub_exact. unfold minDuration. lia.
  - subst r. rewrite Logger_OnAfterEvent_trace, Hactive, <- Hduration.
    apply Forall_app. split; [apply metrics_seconds|].
    destruct (Logger_callback L); repeat constructor. discriminate.
Qed.

(** X7. The measurements of [OnAfterEvent] are the same whatever callback
    is set, a failing one included: the callback comes after them and has
    no say in them. *)
Theorem measurements_whatever_callback (L : Logger) (cb : option Callback)
    (now : time_Time) (entry : LogEntry) :
  measurements (Logger_OnAfterEvent (Logger_SetLogCallback L cb).1 now entry).2
  = measurements (Logger_OnAfterEvent L now entry).2.
Proof.
  rewrite !Logger_measurements. by destruct L.
Qed.

(** X8. [SetLogCallback] returns [nil] and the callback set last is the
    one in force. Setting [nil] takes a callback away: from then on
    [OnAfterEvent] returns [nil] and calls nothing, for every entry. *)
Theorem SetLogCallback_nil_clears (L : Logger) (cb1 cb2 : option Callback)
    (now : time_Time) (entry : LogEntry) :
  (Logger_SetLogCallback L cb1).2 = None
  ∧ Logger_OnAfterEvent
      (Logger_SetLogCallback (Logger_SetLogCallback L cb1).1 cb2).1 now entry
    = Logger_OnAfterEvent (Logger_SetLogCallback L cb2).1 now entry
  ∧ (Logger_OnAfterEvent
       (Logger_SetLogCallback (Logger_SetLogCallback L cb1).1 None).1
       now entry).1.2 = None
  ∧ callback_calls
      (Logger_OnAfterEvent
         (Logger_SetLogCallback (Logger_SetLogCallback L cb1).1 None).1
         now entry).2 = [].
Proof.
  split; [by destruct L|]. split; [by destruct L|].
  rewrite Logger_OnAfterEvent_result, Logger_OnAfterEvent_trace.
  assert (Logger_callback
            (Logger_SetLogCallback (Logger_SetLogCallback L cb1).1 None).1
          = None) as -> by by destruct L.
  split; [by destruct (IsActive entry)|].
  destruct (IsActive entry); [|done].
  rewrite app_nil_r.
  by apply measurements_all, MeterLogger_records_measurements.
Qed.

Lemma stamped_again (now1 now2 : time_Time) (entry : LogEntry) :
  stamped now2 (stamped now1 entry) = stamped now2 entry.
Proof. reflexivity. Qed.



(** ** What the hooks leave alone *)

(** X10. The hooks write [IsActive], [StartTime], [EndTime] and [Duration]
    and nothing else. [OnBeforeEvent] keeps the event type, the request
    fields, [RuleCount], [Error], [EndTime] and [Duration]; the entry that
    [OnAfterEvent] measures, hands to the callback, and returns when there
    is no callback, keeps the event type, the request fields, [RuleCount],
    [Error], [IsActive] and [StartTime]. *)
Theorem hooks_frame (L : Logger) (now : time_Time) (entry : LogEntry) :
  let started := (Logger_OnBeforeEvent L now entry).1 in
  let r := Logger_OnAfterEvent L now entry in
  let seen := if IsActive entry then stamped now entry else entry in
  (same_host_fields entry started
   ∧ EndTime started = EndTime entry ∧ Duration started = Duration entry)
  ∧ (same_host_fields entry seen
     ∧ IsActive seen = IsActive entry ∧ StartTime seen = StartTime entry)
  ∧ r.1.1 = (if IsActive entry then after_callback (Logger_callback L) seen
             else seen)
  ∧ Forall (λ x, is_callback x = true → x = CallbackCall seen) r.2.
Proof.
  intros started r seen. split; [|split; [|split]].
  - subst started. rewrite Logger_OnBeforeEvent_as.
    unfold MeterLogger.OnBeforeEvent, same_host_fields.
    case_match; simpl; by repeat split.
  - subst seen. unfold same_host_fields.
    destruct (IsActive entry) eqn:Hactive; simpl; rewrite ?Hactive;
      by repeat split.
  - subst r seen. rewrite Logger_OnAfterEvent_result.
    destruct (IsActive entry); [|done]. by destruct (Logger_callback L).
  - subst r seen. rewrite Logger_OnAfterEvent_trace.
    destruct (IsActive entry); [|constructor].
    apply Forall_app. split.
    + eapply Forall_impl; [apply MeterLogger_records_measurements|].
      simpl. intros x Hx. congruence.
    + destruct (Logger_callback L); by repeat constructor.
Qed.

(** X11. The measurements depend on the entry through [IsActive], the event
    type, [StartTime], [Domain], [Allowed], [RuleCount] and [Error] only:
    two entries that differ in [Subject], [Object], [Action], or in an
    [EndTime] or [Duration] they bring along, lead to the same
    measurements. *)
Theorem measurements_ignore_identity (L : Logger) (now : time_Time)
    (entry1 entry2 : LogEntry) :
  same_measured_fields entry1 entry2 →
  measurements (Logger_OnAfterEvent L now entry1).2
  = measurements (Logger_OnAfterEvent L now entry2).2.
Proof.
  intros (Hactive & Hkind & Hstart & Hdomain & Hallowed & Hcount & Herror).
  rewrite !Logger_measurements, Hactive.
  destruct (IsActive entry2); [|done].
  unfold metrics_of, MeterLogger.recordEnforceMetrics,
    MeterLogger.recordPolicyMetrics. simpl.
  by rewrite Hkind, Hstart, Hdomain, Hallowed, Hcount, Herror.
Qed.

(** Membership in a list that is written out. *)
Ltac in_list :=
  simpl; repeat first [apply list_elem_of_here | apply list_elem_of_further].

(** What every measurement of a logger looks like. *)
Lemma metrics_shape (l : MeterLogger.OpenTelemetryLogger) (e : LogEntry) :
  (length (metrics_of (MeterLogger.recordEnforceMetrics l)
             (MeterLogger.recordPolicyMetrics l) e) ≤ 3)%nat
  ∧ Forall (λ x,
      (∀ n, effect_increment x = Some n → n = 1)
      ∧ (∀ i, effect_instrument x = Some i → i ∈ MeterLogger_instruments l)
      ∧ (∀ c, effect_ctx x = Some c → c = MeterLogger.ctx l)
      ∧ Forall (λ kv, kv.1 ∈ ["allowed"; "domain"; "operation"; "success"])
          (effect_attrs x))
      (metrics_of (MeterLogger.recordEnforceMetrics l)
         (MeterLogger.recordPolicyMetrics l) e).
Proof.
  unfold MeterLogger_instruments.
  metrics_cases; (split; [lia|]).
  all: repeat (apply Forall_cons; split); try apply Forall_nil.
  all: repeat match goal with |- _ ∧ _ => split end; simpl.
  all: try (intros ? [= <-]; first [reflexivity | by in_list]).
  all: try discriminate.
  all: repeat (apply Forall_cons; split); try apply Forall_nil; by in_list.
Qed.

(** X12. One call of [OnAfterEvent] makes at most three measurements and at
    most one callback call. A counter only ever gets 1 added; every
    measurement goes to one of the logger's five instruments, with the
    logger's context, and under attribute keys among [allowed], [domain],
    [operation] and [success]. *)
Theorem trace_bounds (L : Logger) (now : time_Time) (entry : LogEntry) :
  let trace := (Logger_OnAfterEvent L now entry).2 in
  (length (measurements trace) ≤ 3)%nat
  ∧ (length (callback_calls trace) ≤ 1)%nat
  ∧ Forall (λ x,
      (∀ n, effect_increment x = Some n → n = 1)
      ∧ (∀ i, effect_instrument x = Some i → i ∈ Logger_instruments L)
      ∧ (∀ c, effect_ctx x = Some c → c = Logger_ctx L)
      ∧ Forall (λ kv, kv.1 ∈ ["allowed"; "domain"; "operation"; "success"])
          (effect_attrs x)) trace.
Proof.
  intros trace.
  pose proof (metrics_shape (as_MeterLogger L) (stamped now entry))
    as [Hlength Hshape].
  rewrite as_MeterLogger_instruments, as_MeterLogger_ctx in Hshape.
  split; [|split].
  - subst trace. rewrite Logger_measurements.
    destruct (IsActive entry); [done|simpl; lia].
  - subst trace. rewrite Logger_OnAfterEvent_trace.
    destruct (IsActive entry); [|simpl; lia].
    rewrite callback_calls_app.
    pose proof (MeterLogger_records_measurements (as_MeterLogger L)
                  (stamped now entry)) as Hm.
    apply measurements_all in Hm as [_ ->].
    destruct (Logger_callback L); simpl; lia.
  - subst trace. rewrite Logger_OnAfterEvent_trace.
    destruct (IsActive entry); [|constructor].
    apply Forall_app. split; [exact Hshape|].
    destruct (Logger_callback L); repeat constructor; simpl; discriminate.
Qed.

End further.

(** ** Constructed and configured loggers *)

(** The creation calls of a constructor, answered one by one. *)
Ltac answer_creations m :=
  repeat match goal with
         | |- context [rejects m ?seen ?i] =>
             destruct (rejects m seen i) eqn:?; simpl
         end.

Lemma MeterLogger_constructed (c : context_Context) (m : Meter)
    (l : MeterLogger.OpenTelemetryLogger) :
  (MeterLogger.NewOpenTelemetryLoggerWithContext c m).1.1 = Some l →
  MeterLogger.NewOpenTelemetryLoggerWithContext c m
  = ((Some l, None),
     {| calls := calls m ++ casbin_instruments; rejects := rejects m |})
  ∧ MeterLogger.enabledEventTypes l = ∅
  ∧ MeterLogger.callback l = None
  ∧ MeterLogger_instruments l = casbin_instruments
  ∧ MeterLogger.ctx l = c.
Proof.
  unfold MeterLogger.NewOpenTelemetryLoggerWithContext, returning, checked,
    mbind, Reg_bind, mret, Reg_ret, Float64Histogram, Int64Counter,
    Int64Gauge, meter_create.
  simpl. answer_creations m; try discriminate.
  intros [= <-]. rewrite <- !(assoc_L (++)). by repeat split.
Qed.

Lemma ProviderLogger_constructed (provider : MeterProvider)
    (o : ProviderLogger.OpenTelemetryLogger) :
  (ProviderLogger.NewOpenTelemetryLoggerWithMeterProvider provider).1
  = Returns o →
  (ProviderLogger.NewOpenTelemetryLoggerWithMeterProvider provider).2
  = {| calls := calls (provider ProviderLogger.meterName) ++ casbin_instruments;
       rejects := rejects (provider ProviderLogger.meterName) |}
  ∧ ProviderLogger.enabledEventTypes o = ∅
  ∧ ProviderLogger.callback o = None
  ∧ ProviderLogger_instruments o = casbin_instruments
  ∧ ProviderLogger.meter o
    = (ProviderLogger.NewOpenTelemetryLoggerWithMeterProvider provider).2.
Proof.
  set (m0 := provider ProviderLogger.meterName).
  unfold ProviderLogger.NewOpenTelemetryLoggerWithMeterProvider, panicking,
    checked, mbind, Reg_bind, mret, Reg_ret, ProviderLogger.held_meter,
    Float64Histogram, Int64Counter, Int64Gauge, meter_create.
  fold m0. simpl. answer_creations m0; try discriminate.
  intros [= <-]. rewrite <- !(assoc_L (++)). by repeat split.
Qed.

Lemma constructed_fields (L : Logger) :
  constructed L →
  Logger_enabledEventTypes L = ∅ ∧ Logger_callback L = None
  ∧ Logger_instruments L = casbin_instruments.
Proof.
  intros [(c & m & l & Hnew & ->)|(provider & o & Hnew & ->)].
  - apply MeterLogger_constructed in Hnew. simpl. tauto.
  - apply ProviderLogger_constructed in Hnew. simpl. tauto.
Qed.

(** X13. A logger fresh from a constructor lets every entry through the
    gate, whatever its event type, and its [OnAfterEvent] calls no callback
    and returns [nil]. *)
Theorem fresh_logger_permissive `{EventTypes} (L : Logger) (now : time_Time)
    (entry : LogEntry) :
  constructed L →
  Logger_OnBeforeEvent L now entry
  = (set_StartTime now (set_IsActive true entry), None)
  ∧ (Logger_OnAfterEvent L now entry).1.2 = None
  ∧ callback_calls (Logger_OnAfterEvent L now entry).2 = [].
Proof.
  intros (Henabled & Hcallback & _)%constructed_fields.
  split; [|split].
  - rewrite Logger_OnBeforeEvent_as. unfold MeterLogger.OnBeforeEvent.
    by rewrite as_MeterLogger_enabledEventTypes, Henabled.
  - rewrite Logger_OnAfterEvent_result, Hcallback.
    by destruct (IsActive entry).
  - rewrite Logger_OnAfterEvent_trace, Hcallback.
    destruct (IsActive entry); [|done]. rewrite app_nil_r.
    by apply measurements_all, MeterLogger_records_measurements.
Qed.

(** X14. [NewOpenTelemetryLogger(meter)] and
    [NewOpenTelemetryLoggerWithMeterProvider(provider)], the meter being the
    one the provider hands out, succeed together and fail together, with the
    same error and the same creation calls on the meter; when they succeed,
    the two loggers do the same in both hooks, context arguments included. *)
Theorem constructors_agree `{EventTypes} (provider : MeterProvider) :
  let rA := MeterLogger.NewOpenTelemetryLogger
              (provider ProviderLogger.meterName) in
  let rB := ProviderLogger.NewOpenTelemetryLoggerWithMeterProvider provider in
  rA.1.2 = panicked rB.1
  ∧ rA.2 = rB.2
  ∧ rA.1.1 = (λ o, as_MeterLogger (OfProvider o)) <$> returned rB.1
  ∧ ∀ l o now entry,
      rA.1.1 = Some l → rB.1 = Returns o →
      MeterLogger.OnBeforeEvent l now entry
      = ProviderLogger.OnBeforeEvent o now entry
      ∧ MeterLogger.OnAfterEvent l now entry
        = ProviderLogger.OnAfterEvent o now entry.
Proof.
  intros rA rB.
  assert (rA.1.2 = panicked rB.1 ∧ rA.2 = rB.2
          ∧ rA.1.1 = (λ o, as_MeterLogger (OfProvider o)) <$> returned rB.1)
    as (Herr & Hmeter & Hlogger).
  { subst rA rB. set (m0 := provider ProviderLogger.meterName).
    unfold MeterLogger.NewOpenTelemetryLogger,
      MeterLogger.NewOpenTelemetryLoggerWithContext,
      ProviderLogger.NewOpenTelemetryLoggerWithMeterProvider, returning,
      panicking, checked, mbind, Reg_bind, mret, Reg_ret,
      ProviderLogger.held_meter, Float64Histogram, Int64Counter, Int64Gauge,
      meter_create.
    fold m0. simpl. answer_creations m0; by repeat split. }
  split; [exact Herr|]. split; [exact Hmeter|]. split; [exact Hlogger|].
  intros l o now entry HA HB. rewrite Hlogger, HB in HA. simpl in HA.
  injection HA as <-. split; symmetry.
  - apply (Logger_OnBeforeEvent_as (OfProvider o)).
  - apply (Logger_OnAfterEvent_as (OfProvider o)).
Qed.

(** X15. A constructor stops at the first instrument that the meter
    rejects: when the meter accepts the first [k] creations and answers the
    next with an error, that error is the one returned or panicked with,
    and the meter has been asked for those [k + 1] instruments and no
    other. *)
Theorem construction_stops_at_first_rejection (c : context_Context)
    (provider : MeterProvider) (k : nat) (i : Instrument) (err : GoError) :
  let m := provider ProviderLogger.meterName in
  casbin_instruments !! k = Some i →
  first_error (rejects m) (calls m) (take k casbin_instruments) = None →
  rejects m (calls m ++ take k casbin_instruments) i = Some err →
  MeterLogger.NewOpenTelemetryLoggerWithContext c m
  = ((None, Some err),
     {| calls := calls m ++ take (S k) casbin_instruments;
        rejects := rejects m |})
  ∧ ProviderLogger.NewOpenTelemetryLoggerWithMeterProvider provider
    = (Panics err,
       {| calls := calls m ++ take (S k) casbin_instruments;
          rejects := rejects m |}).
Proof.
  intros m Hk Hearlier Hreject.
  unfold MeterLogger.NewOpenTelemetryLoggerWithContext,
    ProviderLogger.NewOpenTelemetryLoggerWithMeterProvider, returning,
    panicking, checked, mbind, Reg_bind, mret, Reg_ret,
    ProviderLogger.held_meter, Float64Histogram, Int64Counter, Int64Gauge,
    meter_create.
  fold m.
  do 5 (destruct k as [|k];
        [ simpl in Hk; injection Hk as <-; simpl in Hearlier, Hreject;
          repeat match type of Hearlier with
                 | context [rejects m ?seen ?j] =>
                     destruct (rejects m seen j) eqn:?;
                     [discriminate Hearlier|]
                 end;
          simpl; rewrite <- ?(assoc_L (++)), ?app_nil_r in *; simpl in *;
          repeat (match goal with
                  | Heq : rejects m _ _ = _ |- _ => rewrite Heq
                  end; simpl; rewrite <- ?(assoc_L (++)); simpl);
          split; reflexivity
        | ]).
  discriminate Hk.
Qed.

(** X16. What holds of every logger a program can have, however it was
    configured: it holds the five instruments it was constructed with, as
    the getters return them; its enabled-event map has no [false] value, so
    that the gate filters an entry exactly when the map has a key and the
    entry's event type is not one. *)
Theorem reachable_invariant (L : Logger) :
  reachable L →
  Logger_instruments L = casbin_instruments
  ∧ (∀ l, L = OfMeter l →
       [MeterLogger.GetEnforceDuration l; MeterLogger.GetEnforceTotal l;
        MeterLogger.GetPolicyOpsTotal l; MeterLogger.GetPolicyOpsDuration l;
        MeterLogger.GetPolicyRulesCount l] = casbin_instruments)
  ∧ (∀ k b, Logger_enabledEventTypes L !! k = Some b → b = true)
  ∧ (∀ now entry,
       IsActive (Logger_OnBeforeEvent L now entry).1 = false
       ↔ dom (Logger_enabledEventTypes L) ≠ ∅
         ∧ entry_EventType entry ∉ dom (Logger_enabledEventTypes L)).
Proof.
  intros Hreach.
  assert (Logger_instruments L = casbin_instruments
          ∧ ∀ k b, Logger_enabledEventTypes L !! k = Some b → b = true)
    as [Hinstruments Htrue].
  { induction Hreach as [L Hnew|L ks _ [IHi IHt]|L cb _ [IHi IHt]].
    - apply constructed_fields in Hnew as (Hempty & _ & Hinstruments).
      split; [done|]. intros k b. by rewrite Hempty, lookup_empty.
    - split; [by destruct L|]. intros k b.
      rewrite <- as_MeterLogger_enabledEventTypes,
        as_MeterLogger_SetEventTypes. simpl.
      rewrite SetEventTypes_loop, lookup_empty. case_decide; congruence.
    - split; by destruct L. }
  split; [exact Hinstruments|].
  split; [intros l ->; exact Hinstruments|].
  split; [exact Htrue|]. intros now entry.
  pose proof (MeterLogger_gate_active (as_MeterLogger L) now entry) as Hgate.
  rewrite <- Logger_OnBeforeEvent_as, as_MeterLogger_enabledEventTypes in Hgate.
  rewrite dom_empty_iff_L, not_elem_of_dom.
  destruct (IsActive (Logger_OnBeforeEvent L now entry).1).
  - split; [discriminate|]. intros [Hne Hnone].
    destruct (proj1 Hgate eq_refl) as [Hempty|Hin]; [done|].
    unfold enabled in Hin. congruence.
  - split; [|done]. intros _. split.
    + intros Hempty. discriminate (proj2 Hgate (or_introl Hempty)).
    + destruct (Logger_enabledEventTypes L !! entry_EventType entry)
        as [b|] eqn:Hlookup; [|done].
      rewrite (Htrue _ _ Hlookup) in Hlookup.
      discriminate (proj2 Hgate (or_intror Hlookup)).
Qed.

Lemma reachable_instruments (L : Logger) :
  reachable L → Logger_instruments L = casbin_instruments.
Proof.
  induction 1 as [L Hnew|L ks _ IH|L cb _ IH].
  - by apply constructed_fields in Hnew as (_ & _ & Hinstruments).
  - by destruct L.
  - by destruct L.
Qed.

Section names.
Context `{EventTypes}.

(** The three ways through the [switch] of [OnAfterEvent]. *)
Lemma dispatch_cases (k : EventType) :
  (k = EventEnforce
   ∧ (k ∉ [EventAddPolicy; EventRemovePolicy; EventLoadPolicy; EventSavePolicy])
   ∧ String.eqb k EventEnforce = true)
  ∨ (k ≠ EventEnforce
     ∧ k ∈ [EventAddPolicy; EventRemovePolicy; EventLoadPolicy; EventSavePolicy]
     ∧ String.eqb k EventEnforce = false
     ∧ String.eqb k EventAddPolicy || String.eqb k EventRemovePolicy
       || String.eqb k EventLoadPolicy || String.eqb k EventSavePolicy = true)
  ∨ (k ≠ EventEnforce
     ∧ (k ∉ [EventAddPolicy; EventRemovePolicy; EventLoadPolicy; EventSavePolicy])
     ∧ String.eqb k EventEnforce = false
     ∧ String.eqb k EventAddPolicy || String.eqb k EventRemovePolicy
       || String.eqb k EventLoadPolicy || String.eqb k EventSavePolicy = false).
Proof.
  destruct (decide (k = EventEnforce)) as [->|Hne].
  - left. split; [done|]. split; [|apply String.eqb_refl].
    pose proof EventTypes_distinct as Hnd.
    by apply NoDup_cons in Hnd as [Hnotin _].
  - right.
    destruct (decide (k ∈ [EventAddPolicy; EventRemovePolicy; EventLoadPolicy;
                           EventSavePolicy])) as [Hin|Hout].
    + left. split; [done|]. split; [done|]. by apply policy_type_dispatch.
    + right. split; [done|]. split; [done|]. apply unknown_type_dispatch.
      apply not_elem_of_cons. by split.
Qed.

(** X17. For a logger a program can have, one call of [OnAfterEvent]
    reaches each instrument at most once, and by name: the two enforce
    instruments exactly for an active entry of type [EventEnforce], the two
    policy-operation instruments exactly for an active entry of one of the
    four policy types, and [casbin.policy.rules.count] exactly when, on top
    of that, [RuleCount] is positive. *)
Theorem named_measurements (L : Logger) (now : time_Time) (entry : LogEntry) :
  reachable L →
  let trace := (Logger_OnAfterEvent L now entry).2 in
  let policy := [EventAddPolicy; EventRemovePolicy; EventLoadPolicy;
                 EventSavePolicy] in
  (∀ name,
     name ∈ ["casbin.enforce.total"; "casbin.enforce.duration"] →
     (measurements_on name trace ≠ []
      ↔ IsActive entry = true ∧ entry_EventType entry = EventEnforce))
  ∧ (∀ name,
       name ∈ ["casbin.policy.operations.total";
               "casbin.policy.operations.duration"] →
       (measurements_on name trace ≠ []
        ↔ IsActive entry = true ∧ entry_EventType entry ∈ policy))
  ∧ (measurements_on "casbin.policy.rules.count" trace ≠ []
     ↔ IsActive entry = true ∧ entry_EventType entry ∈ policy
       ∧ 0 < RuleCount entry)
  ∧ ∀ name, (length (measurements_on name trace) ≤ 1)%nat.
Proof.
  intros Hreach trace policy.
  apply reachable_instruments in Hreach as Hinstruments.
  rewrite <- as_MeterLogger_instruments in Hinstruments.
  injection Hinstruments as Hi1 Hi2 Hi3 Hi4 Hi5.
  subst trace. rewrite Logger_OnAfterEvent_trace.
  destruct (IsActive entry).
  2: { split; [|split; [|split]]; [intros name _| intros name _| |intros name];
         simpl; try lia; split; try done; intros Hside; destruct Hside;
         discriminate. }
  unfold measurements_on. setoid_rewrite filter_app.
  assert (∀ name, filter (λ x, inst_name <$> effect_instrument x = Some name)
                    (if Logger_callback L is Some _
                     then [CallbackCall (stamped now entry)] else []) = [])
    as Hcallback by (intros name; by destruct (Logger_callback L)).
  setoid_rewrite Hcallback. setoid_rewrite app_nil_r.
  unfold metrics_of, MeterLogger.recordEnforceMetrics,
    MeterLogger.recordPolicyMetrics.
  rewrite Hi1, Hi2, Hi3, Hi4, Hi5. simpl.
  destruct (dispatch_cases (entry_EventType entry))
    as [(Hk & Hnp & ->)|[(Hk & Hp & -> & ->)|(Hk & Hnp & -> & ->)]];
    [| destruct (Z.ltb_spec 0 (RuleCount entry)) |].
  all: split; [|split; [|split]];
    [ intros name Hname; apply elem_of_cons in Hname as [->|Hname];
      [|apply list_elem_of_singleton in Hname as ->]
    | intros name Hname; apply elem_of_cons in Hname as [->|Hname];
      [|apply list_elem_of_singleton in Hname as ->]
    |
    | intros name ].
  all: rewrite ?filter_cons, ?filter_nil; repeat case_decide;
    simpl in *; simplify_eq; try lia.
  all: split; intros Hside; try discriminate; try done.
  all: try (by destruct Hside).
  all: try (destruct Hside as (_ & Hin & Hpos); first [contradiction | lia]).
  all: try (destruct Hside as (_ & Hin); first [contradiction | congruence]).
  all: try (repeat split; first [done | lia]).
Qed.

End names.

(** ** The further properties at work *)

(** With only ["enforce"] enabled, an ["addPolicy"] entry that comes in
    marked active leaves the gate inactive and goes through three
    [OnAfterEvent]s untouched. *)
Lemma filtered_lifecycle_witness :
  let L' := (Logger_SetEventTypes (OfMeter fresh_MeterLogger) ["enforce"]).1 in
  let entry := sample_entry true "addPolicy" 7 "" false 5 None in
  Logger_OnBeforeEvent L' 1000 entry = (set_IsActive false entry, None)
  ∧ repeatedly (Logger_OnAfterEvent L') [1005; 1010; 1015]
      (Logger_OnBeforeEvent L' 1000 entry).1
    = (set_IsActive false entry, [None; None; None], []).
Proof.
  refine (filtered_lifecycle (OfMeter fresh_MeterLogger) ["enforce"] 1000
            [1005; 1010; 1015]
            (sample_entry true "addPolicy" 7 "" false 5 None) _ _).
  - discriminate.
  - intros Hin. apply list_elem_of_singleton in Hin. discriminate Hin.
Defined.

(** The enforce entry of [TestFullWorkflow]: through the gate at 1 s, the
    host sets [Allowed], [OnAfterEvent] 10 ms later. *)
Lemma lifecycle_duration_witness :
  let L := OfProvider (sample_ProviderLogger {[ "enforce" := true ]} None) in
  let entry := sample_entry false "enforce" 0 "org1" false 0 None in
  let entry2 := sample_entry true "enforce" 1000000000 "org1" true 0 None in
  Duration (Logger_OnAfterEvent L 1010000000 entry2).1.1 = 10000000
  ∧ Forall (λ x, ∀ d, effect_seconds x = Some d → d = 10000000)
      (Logger_OnAfterEvent L 1010000000 entry2).2.
Proof.
  pose proof (lifecycle_duration
                (OfProvider (sample_ProviderLogger {[ "enforce" := true ]} None))
                1000000000 1010000000
                (sample_entry false "enforce" 0 "org1" false 0 None)
                (sample_entry true "enforce" 1000000000 "org1" true 0 None)
                ltac:(discriminate) eq_refl eq_refl eq_refl)
    as (Hreturned & _ & _ & Hduration & _ & _ & Hrecorded).
  cbv zeta. split; [|exact Hrecorded].
  rewrite Hreturned. exact Hduration.
Defined.


(** Two requests that differ in who asks for what. *)
Lemma measurements_ignore_identity_witness :
  let L := OfMeter (sample_MeterLogger ∅ None) in
  let entry1 := sample_entry true "enforce" 1000 "domain1" true 0 None in
  let entry2 :=
    {| IsActive := true; entry_EventType := "enforce"; StartTime := 1000;
       EndTime := 5; Duration := 6; Subject := "bob"; Object := "data2";
       Action := "write"; Domain := "domain1"; Allowed := true;
       RuleCount := 0; Error := None |} in
  measurements (Logger_OnAfterEvent L 1100 entry1).2
  = measurements (Logger_OnAfterEvent L 1100 entry2).2.
Proof.
  refine (measurements_ignore_identity (OfMeter (sample_MeterLogger ∅ None))
            1100 (sample_entry true "enforce" 1000 "domain1" true 0 None)
            _ _).
  repeat split.
Defined.

Lemma fresh_MeterLogger_constructed : constructed (OfMeter fresh_MeterLogger).
Proof.
  left. exists context_Background, accepting_meter, fresh_MeterLogger.
  split; reflexivity.
Defined.

(** The fresh logger lets a ["savePolicy"] entry through. *)
Lemma fresh_logger_permissive_witness :
  let entry := sample_entry false "savePolicy" 0 "" false 1 None in
  Logger_OnBeforeEvent (OfMeter fresh_MeterLogger) 1000 entry
  = (set_StartTime 1000 (set_IsActive true entry), None)
  ∧ (Logger_OnAfterEvent (OfMeter fresh_MeterLogger) 1000 entry).1.2 = None
  ∧ callback_calls (Logger_OnAfterEvent (OfMeter fresh_MeterLogger) 1000 entry).2
    = [].
Proof.
  exact (fresh_logger_permissive (OfMeter fresh_MeterLogger) 1000
           (sample_entry false "savePolicy" 0 "" false 1 None)
           fresh_MeterLogger_constructed).
Defined.

(** The meter that accepts no second counter: both constructors stop at
    the third instrument. *)
Lemma construction_stops_at_first_rejection_witness :
  MeterLogger.NewOpenTelemetryLoggerWithContext (context_Derived 7)
    one_counter_meter
  = ((None, Some (errors_New "one counter only")),
     {| calls := take 3 casbin_instruments;
        rejects := rejects one_counter_meter |})
  ∧ ProviderLogger.NewOpenTelemetryLoggerWithMeterProvider
      (λ _, one_counter_meter)
    = (Panics (errors_New "one counter only"),
       {| calls := take 3 casbin_instruments;
          rejects := rejects one_counter_meter |}).
Proof.
  exact (construction_stops_at_first_rejection (context_Derived 7)
           (λ _, one_counter_meter) 2
           {| inst_kind := Int64CounterKind;
              inst_name := "casbin.policy.operations.total";
              inst_options :=
                [WithDescription "Total number of policy operations"] |}
           (errors_New "one counter only") eq_refl eq_refl eq_refl).
Defined.

Lemma configured_reachable :
  reachable (Logger_SetLogCallback
               (Logger_SetEventTypes (OfMeter fresh_MeterLogger)
                  ["enforce"; "addPolicy"]).1
               (Some failing_callback)).1.
Proof.
  apply reachable_SetLogCallback, reachable_SetEventTypes,
    reachable_constructed, fresh_MeterLogger_constructed.
Defined.

(** A logger constructed, then configured twice, still holds the five
    instruments. *)
Lemma reachable_invariant_witness :
  Logger_instruments
    (Logger_SetLogCallback
       (Logger_SetEventTypes (OfMeter fresh_MeterLogger)
          ["enforce"; "addPolicy"]).1
       (Some failing_callback)).1
  = casbin_instruments.
Proof.
  exact (proj1 (reachable_invariant _ configured_reachable)).
Defined.

(** On that logger, an added policy of five rules reaches the gauge
    once. *)
Lemma named_measurements_witness :
  (length (measurements_on "casbin.policy.rules.count"
             (Logger_OnAfterEvent
                (Logger_SetLogCallback
                   (Logger_SetEventTypes (OfMeter fresh_MeterLogger)
                      ["enforce"; "addPolicy"]).1
                   (Some failing_callback)).1
                1050%Z
                (sample_entry true "addPolicy" 1000%Z "" false 5%Z None)).2)
   ≤ 1)%nat.
Proof.
  exact (proj2 (proj2 (proj2 (named_measurements _ 1050
           (sample_entry true "addPolicy" 1000 "" false 5 None)
           configured_reachable))) "casbin.policy.rules.count").
Defined.
